(** * TerraWeb: role-based access control, sessions and user storage

    A shallow embedding of the authorization core of the TerraWeb server
    ([server/auth.ts], [server/routes.ts], [server/storage.ts]) and of the
    client permission helpers ([client/src/hooks/use-auth.tsx],
    [client/src/lib/role-guard.tsx]).

    JavaScript objects are finite maps from property names to values,
    the [Map]s of [MemStorage] are finite maps keyed by id, and the
    effects of a request handler (session store, user store) are threaded
    explicitly.  What the code obtains from outside the process (the
    collaborator's HTTP reply, the random session identifiers drawn by
    express-session) is an explicit input of the handler. *)

From Stdlib Require Import ZArith QArith.
From stdpp Require Import base option gmap strings list sorting.

Local Open Scope Z_scope.
Local Open Scope string_scope.

(** ** JavaScript values *)

Module JS.

(** The values that travel in JSON bodies and identity records: the
    scalars, and nested plain objects, which are opaque (no handler looks
    inside one).  Numbers are integers (the handlers only test a number
    for truth, where a fraction behaves as any non-zero integer); arrays
    are left out. *)
Inductive value : Type :=
| VUndefined
| VNull
| VBool (b : bool)
| VNum (n : Z)
| VStr (s : string)
| VObject.

#[export] Instance value_eq_dec : EqDecision value.
Proof. solve_decision. Defined.

(** ToBoolean. *)
Definition truthy (v : value) : bool :=
  match v with
  | VUndefined | VNull => false
  | VBool b => b
  | VNum n => negb (Z.eqb n 0)
  | VStr s => negb (String.eqb s "")
  | VObject => true
  end.

(** [a || b] on values. *)
Definition or_else (a b : value) : value := if truthy a then a else b.

(** An object literal or a JSON object: own properties only. *)
Abbreviation obj := (gmap string value).

(** [o.k]: a missing property reads as [undefined]. *)
Definition get (o : obj) (k : string) : value := default VUndefined (o !! k).

(** What [JSON.stringify] keeps of an object: properties whose value is
    [undefined] are dropped. *)
Definition stringify_fields (o : obj) : obj :=
  filter (fun kv => kv.2 <> VUndefined) o.

(** The result of reading a property of an object literal whose own
    properties are numbers, such as [roleHierarchy[k]]: an own number,
    [undefined], or a member inherited from [Object.prototype] (a
    function, or an object for [__proto__]). *)
Inductive entry : Type :=
| ENum (n : Z)
| EMissing
| EBuiltin.

#[export] Instance entry_eq_dec : EqDecision entry.
Proof. solve_decision. Defined.

(** Property names every ordinary object inherits. *)
Definition object_prototype_names : list string :=
  [ "constructor"; "__defineGetter__"; "__defineSetter__"; "hasOwnProperty";
    "__lookupGetter__"; "__lookupSetter__"; "isPrototypeOf";
    "propertyIsEnumerable"; "toString"; "valueOf"; "__proto__";
    "toLocaleString" ].

Definition inherited (k : string) : bool :=
  bool_decide (k ∈ object_prototype_names).

(** ToBoolean and ToNumber on entries; [None] is NaN.  A function or an
    object is truthy and converts to NaN. *)
Definition entry_truthy (e : entry) : bool :=
  match e with
  | ENum n => negb (Z.eqb n 0)
  | EMissing => false
  | EBuiltin => true
  end.

Definition to_number (e : entry) : option Z :=
  match e with
  | ENum n => Some n
  | EMissing => None
  | EBuiltin => None
  end.

(** [e || 0]. *)
Definition or_zero (e : entry) : entry := if entry_truthy e then e else ENum 0.

(** [a < b] and [a >= b]: false as soon as one side is NaN. *)
Definition lt (a b : entry) : bool :=
  match to_number a, to_number b with
  | Some x, Some y => Z.ltb x y
  | _, _ => false
  end.

Definition ge (a b : entry) : bool :=
  match to_number a, to_number b with
  | Some x, Some y => Z.geb x y
  | _, _ => false
  end.

End JS.

Import JS.

(** ** The role hierarchy *)

(** [type UserRole = "admin" | "technician" | "user"]. *)
Inductive UserRole : Type := Admin | Technician | User.

#[export] Instance UserRole_eq_dec : EqDecision UserRole.
Proof. solve_decision. Defined.

Definition role_name (r : UserRole) : string :=
  match r with
  | Admin => "admin"
  | Technician => "technician"
  | User => "user"
  end.

(** [const roleHierarchy = { admin: 3, technician: 2, user: 1 }], the same
    literal in [hasRole] (client) and in [requireRole] (server). *)
Definition roleHierarchy : gmap string Z :=
  <["admin" := 3]> (<["technician" := 2]> (<["user" := 1]> ∅)).

(** [roleHierarchy[k]] for a string key: own property first, then the
    prototype chain. *)
Definition roleHierarchy_get (k : string) : entry :=
  match roleHierarchy !! k with
  | Some n => ENum n
  | None => if inherited k then EBuiltin else EMissing
  end.

(** [roleHierarchy[v]]: the key is ToString of [v], and ToString of
    [undefined], [null], a boolean or a number names no property of the
    literal or of [Object.prototype].  A nested value is taken for an
    object whose key is ["[object Object]"], which names no property
    either; an array, whose key is the join of its elements (the key of
    [["admin"]] is [admin]), and an object with a [toString] of its own
    are outside this embedding, and the properties below that rely on
    this clause say so. *)
Definition roleHierarchy_at (v : value) : entry :=
  match v with
  | VStr s => roleHierarchy_get s
  | _ => EMissing
  end.

(** [roleHierarchy[requiredRole]] at a key of the literal. *)
Definition required_level (r : UserRole) : entry := roleHierarchy_get (role_name r).

(** The rank of the specification: 3, 2, 1, and 0 for anything else. *)
Definition rank (s : string) : Z :=
  if String.eqb s "admin" then 3
  else if String.eqb s "technician" then 2
  else if String.eqb s "user" then 1
  else 0.

(** A role name is one of the three recognized roles. *)
Definition recognized (s : string) : Prop :=
  s = "admin" \/ s = "technician" \/ s = "user".

(** ** Client: [use-auth.tsx] *)

Module Client.

(** [hasRole(userRole, requiredRole)]. *)
Definition hasRole (userRole : value) (requiredRole : UserRole) : bool :=
  JS.ge (roleHierarchy_at userRole) (required_level requiredRole).

Definition canAccessAnalytics (userRole : value) : bool := hasRole userRole Technician.
Definition canManageSensors (userRole : value) : bool := hasRole userRole Technician.
Definition canExportData (userRole : value) : bool := hasRole userRole Technician.
Definition canManageUsers (userRole : value) : bool := hasRole userRole Admin.
Definition canAccessAdvancedSettings (userRole : value) : bool := hasRole userRole Admin.

(** The cached identity, as parsed from the server's JSON. *)
Record CachedUser : Type := mkCachedUser {
  cu_id : value;
  cu_username : value;
  cu_role : value
}.

(** The closures [AuthProvider] puts in the context:
    [user ? f(user.role || "user") : false]. *)
Definition with_user (f : value -> bool) (user : option CachedUser) : bool :=
  match user with
  | Some u => f (or_else (cu_role u) (VStr "user"))
  | None => false
  end.

Definition checkRole (user : option CachedUser) (requiredRole : UserRole) : bool :=
  with_user (fun r => hasRole r requiredRole) user.

(** The permission members of the context. *)
Inductive Permission : Type :=
| PAccessAnalytics
| PManageSensors
| PExportData
| PManageUsers
| PAccessAdvancedSettings
| PAccessAdminPanel.

(** [auth[requiredPermission]()]. *)
Definition permission (p : Permission) (user : option CachedUser) : bool :=
  match p with
  | PAccessAnalytics => with_user canAccessAnalytics user
  | PManageSensors => with_user canManageSensors user
  | PExportData => with_user canExportData user
  | PManageUsers => with_user canManageUsers user
  | PAccessAdvancedSettings => with_user canAccessAdvancedSettings user
  | PAccessAdminPanel => with_user canManageUsers user
  end.

(** The minimum role of each permission, as the specification names it:
    technician for analytics, sensor management and export; admin for
    user management, advanced settings and the admin panel. *)
Definition minRole (p : Permission) : UserRole :=
  match p with
  | PAccessAnalytics | PManageSensors | PExportData => Technician
  | PManageUsers | PAccessAdvancedSettings | PAccessAdminPanel => Admin
  end.

(** [RoleGuard]: whether the subtree is rendered. *)
Definition guard_hasAccess (requiredRole : option UserRole)
    (requiredPermission : option Permission) (user : option CachedUser) : bool :=
  let hasAccess :=
    match requiredRole with
    | Some r => checkRole user r
    | None => true
    end in
  match requiredPermission with
  | Some p => if hasAccess then permission p user else hasAccess
  | None => hasAccess
  end.

End Client.

(** ** Rows of [shared/schema] *)

Module Schema.

(** [Sensor] and [Measurement]: [real] columns are rationals,
    timestamps are milliseconds since the epoch, nullable columns are
    options. *)
Record Sensor : Type := mkSensor {
  sensor_id : string;
  sensor_name : string;
  sensor_type : string;
  sensor_isActive : option bool;
  sensor_lastSeen : option Z;
  sensor_latitude : option Q;
  sensor_longitude : option Q
}.

Record Measurement : Type := mkMeasurement {
  m_id : string;
  m_sensorId : string;
  m_measurementType : string;
  m_value : Q;
  m_unit : string;
  m_latitude : Q;
  m_longitude : Q;
  m_timestamp : Z;
  m_status : option string;
  m_satelliteData : option string;
  m_vegetationIndex : option Q
}.

End Schema.

Import Schema.

(** ** HTTP replies *)

Module Http.

(** What a handler sends: [res.json(object)], [res.json(array)] for the
    collections the routes return, or a plain text body. *)
Inductive payload : Type :=
| Json (o : obj)
| JsonList (l : list obj)
| JsonSensors (l : list Sensor)
| JsonMeasurements (l : list Measurement)
| Text (s : string).

Record response : Type := mkResponse {
  status : Z;
  body : payload
}.

(** [res.status(code).json({ error: msg })] and
    [res.status(code).json({ message: msg })]. *)
Definition error (code : Z) (msg : string) : response :=
  mkResponse code (Json {[ "error" := VStr msg ]}).

Definition message (code : Z) (msg : string) : response :=
  mkResponse code (Json {[ "message" := VStr msg ]}).

(** The properties of a JSON object body; a body of another shape has
    none. *)
Definition fields (r : response) : obj :=
  match body r with
  | Json o => o
  | _ => ∅
  end.

(** What a middleware does: answer, or call [next()]. *)
Inductive step : Type :=
| Next
| Reply (r : response).

(** Whether the downstream handler runs. *)
Definition passes (s : step) : bool :=
  match s with
  | Next => true
  | Reply _ => false
  end.

End Http.

Import Http.

(** ** [server/storage.ts]: [MemStorage] *)

Module Storage.

(** The [Map]s of [MemStorage] that the embedded routes use ([dataFiles]
    is left out).  A user is the JavaScript object stored under its id;
    sensors and measurements keep the insertion order in which
    [Map.values()] enumerates them. *)
Record MemStorage : Type := mkMemStorage {
  users : gmap string obj;
  sensors : list (string * Sensor);
  measurements : list (string * Measurement)
}.

(** A storage call returns, or throws [new Error(msg)]. *)
Inductive result (A : Type) : Type :=
| Ok (a : A)
| Throw (msg : string).

Arguments Ok {A} a.
Arguments Throw {A} msg.

Definition getUser (st : MemStorage) (id : string) : option obj := users st !! id.

(** [Array.from(this.users.values())]; the order of the array is that
    of the finite map, not the insertion order. *)
Definition getAllUsers (st : MemStorage) : list obj :=
  (map_to_list (users st)).*2.

(** [updateUserRole(id, role)]: [{ ...user, role }] stored back under
    [id] and returned. *)
Definition updateUserRole (st : MemStorage) (id : string) (role : UserRole)
    : result (MemStorage * obj) :=
  match users st !! id with
  | None => Throw "User not found"
  | Some user =>
      let updatedUser := <["role" := VStr (role_name role)]> user in
      Ok (mkMemStorage (<[id := updatedUser]> (users st)) (sensors st) (measurements st),
          updatedUser)
  end.

Definition getSensors (st : MemStorage) : list Sensor := (sensors st).*2.

(** [Array.prototype.sort] with the comparator
    [(a, b) => b.timestamp - a.timestamp]: a stable sort, newest
    first. *)
Fixpoint insert_desc (x : Measurement) (l : list Measurement) : list Measurement :=
  match l with
  | [] => [x]
  | y :: l' =>
      if Z.ltb (m_timestamp x) (m_timestamp y) then y :: insert_desc x l'
      else x :: y :: l'
  end.

Definition sort_desc (l : list Measurement) : list Measurement :=
  foldr insert_desc [] l.

Definition getMeasurements (st : MemStorage) : list Measurement :=
  sort_desc (measurements st).*2.

Definition getRecentMeasurements (st : MemStorage) (limit : nat) : list Measurement :=
  take limit (getMeasurements st).

End Storage.

Import Storage.

(** ** Sessions: express-session as [setupAuth] configures it *)

Module Session.

(** [req.session.user], as [/api/login] writes it. *)
Record SessionUser : Type := mkSessionUser {
  su_id : value;
  su_username : value;
  su_role : value;
  su_access_token : value;
  su_token_type : value
}.

#[export] Instance SessionUser_eq_dec : EqDecision SessionUser.
Proof. solve_decision. Defined.

(** The application's part of a session object (its cookie apart). *)
Record data : Type := mkData { user : option SessionUser }.

#[export] Instance data_eq_dec : EqDecision data.
Proof. solve_decision. Defined.

(** [new Session(req)]. *)
Definition fresh : data := mkData None.

(** The session side of a request in flight.  [store] is the
    [MemoryStore] (it holds the sessions that have not expired),
    [cookieId] the id in the request's signed cookie, [session] is
    [None] once [req.session] has been deleted; [originalId],
    [originalHash] and [savedHash] are the middleware's bookkeeping for
    deciding what to write back. *)
Record ctx : Type := mkCtx {
  store : gmap string data;
  cookieId : option string;
  sessionID : string;
  session : option data;
  originalId : string;
  originalHash : data;
  savedHash : option data
}.

(** The middleware's [generate()], with the identifier [uid] that
    [genid] draws. *)
Definition generate (st : gmap string data) (cookie : option string) (uid : string) : ctx :=
  mkCtx st cookie uid (Some fresh) uid fresh None.

(** The middleware on entry: a cookie naming a stored session loads
    it; otherwise a new, empty session is generated ([resave: false]
    sets [savedHash] on load). *)
Definition enter (st : gmap string data) (cookie : option string) (uid : string) : ctx :=
  match cookie with
  | None => generate st cookie uid
  | Some c =>
      match st !! c with
      | None => generate st cookie uid
      | Some sess => mkCtx st cookie c (Some sess) c sess (Some sess)
      end
  end.

(** [MemoryStore.destroy(sid, fn)]: deletes, and reports no error. *)
Definition store_destroy (st : gmap string data) (sid : string)
    : gmap string data * option string :=
  (delete sid st, None).

(** [req.session.regenerate(fn)]: [Store.regenerate] destroys the
    current id, then [store.generate] installs a new empty session
    under [uid] whatever the outcome; the bookkeeping is untouched. *)
Definition regenerate (c : ctx) (uid : string) : ctx * option string :=
  let '(st, err) := store_destroy (store c) (sessionID c) in
  (mkCtx st (cookieId c) uid (Some fresh) (originalId c) (originalHash c) (savedHash c),
   err).

(** [req.session.destroy(fn)]: deletes [req.session] and destroys the
    stored session. *)
Definition destroy (c : ctx) : ctx * option string :=
  let '(st, err) := store_destroy (store c) (sessionID c) in
  (mkCtx st (cookieId c) (sessionID c) None (originalId c) (originalHash c) (savedHash c),
   err).

(** [req.session.user = u]. *)
Definition set_user (c : ctx) (u : SessionUser) : ctx :=
  mkCtx (store c) (cookieId c) (sessionID c) (Some (mkData (Some u)))
        (originalId c) (originalHash c) (savedHash c).

Definition isModified (c : ctx) (s : data) : bool :=
  bool_decide (originalId c ≠ sessionID c) || bool_decide (originalHash c ≠ s).

Definition isSaved (c : ctx) (s : data) : bool :=
  bool_decide (originalId c = sessionID c) && bool_decide (savedHash c = Some s).

(** [shouldSave] with [saveUninitialized: false]. *)
Definition shouldSave (c : ctx) (s : data) : bool :=
  if bool_decide (savedHash c = None) && bool_decide (cookieId c ≠ Some (sessionID c))
  then isModified c s
  else negb (isSaved c s).

(** [shouldSetCookie] with [saveUninitialized: false], [rolling] unset
    and a cookie that has a [maxAge]. *)
Definition shouldSetCookie (c : ctx) (s : data) : bool :=
  isModified c s.

(** The middleware when the response ends: the store afterwards and the
    session id of the [Set-Cookie] header, if one is sent.  The refresh
    of a stored session's expiry ([touch]) changes no session data and
    is left out. *)
Definition leave (c : ctx) : gmap string data * option string :=
  match session c with
  | None => (store c, None)
  | Some s =>
      (if shouldSave c s then <[sessionID c := s]> (store c) else store c,
       if shouldSetCookie c s then Some (sessionID c) else None)
  end.

End Session.

Import Session.

(** ** [server/auth.ts] *)

Module Auth.

(** [requireAuth]. *)
Definition requireAuth (s : data) : step :=
  match user s with
  | None => Reply (error 401 "Authentication required")
  | Some _ => Next
  end.

(** [roleHierarchy[user.role] || 0]. *)
Definition userLevel (role : value) : entry := or_zero (roleHierarchy_at role).

(** [requireRole(requiredRole)]. *)
Definition requireRole (requiredRole : UserRole) (s : data) : step :=
  match user s with
  | None => Reply (error 401 "Authentication required")
  | Some u =>
      let requiredLevel := required_level requiredRole in
      if JS.lt (userLevel (su_role u)) requiredLevel
      then Reply (error 403 "Insufficient permissions")
      else Next
  end.

(** The outcome of [fetch(FASTAPI_BASE_URL + "/login")] followed by
    [response.json()]: the body is not JSON, is [null], is another
    primitive, or is an object (or array) with its own properties. *)
Inductive json_reply : Type :=
| JsonInvalid
| JsonNull
| JsonPrimitive
| JsonObject (o : obj).

Inductive fetch_result : Type :=
| FetchRejects
| FetchResponse (code : Z) (json : json_reply).

(** [response.ok]. *)
Definition ok (code : Z) : bool := Z.leb 200 code && Z.leb code 299.

Definition internal_error : response := error 500 "Internal server error".

(** An exception no [try] block catches: the framework's own 500. *)
Definition uncaught : response := mkResponse 500 (Text "Internal Server Error").

(** The identity [/api/login] copies out of the collaborator's reply. *)
Definition identity_of (d : obj) : SessionUser :=
  mkSessionUser (get d "id") (get d "username") (get d "role")
                (get d "access_token") (get d "token_type").

(** The object literal passed to [res.json] on success. *)
Definition login_body (d : obj) : obj :=
  <["id" := get d "id"]> (<["username" := get d "username"]> (<["role" := get d "role"]>
  (<["access_token" := get d "access_token"]> (<["token_type" := get d "token_type"]> ∅)))).

(** The part of [/api/login] after [const data = await response.json()]. *)
Definition establish (c : ctx) (d : obj) (uid : string) : ctx * response :=
  match session c with
  | None => (c, internal_error)
  | Some _ =>
      let c1 := set_user c (identity_of d) in
      let '(c2, err) := regenerate c1 uid in
      match err with
      | Some _ => (c2, error 500 "Session error")
      | None =>
          let c3 := set_user c2 (identity_of d) in
          (c3, mkResponse 200 (Json (stringify_fields (login_body d))))
      end
  end.

(** [POST /api/login].  [reply] is what the collaborator answers and
    [uid] the identifier [regenerate] draws; an exception inside the
    [try] block ends in the [catch] clause's 500. *)
Definition login (c : ctx) (body : obj) (reply : fetch_result) (uid : string)
    : ctx * response :=
  let username := get body "username" in
  let password := get body "password" in
  if negb (truthy username) || negb (truthy password)
  then (c, error 400 "Username and password are required")
  else
    match reply with
    | FetchRejects => (c, internal_error)
    | FetchResponse code json =>
        if negb (ok code) then
          if Z.eqb code 401
          then (c, error 401 "Invalid username or password")
          else (c, internal_error)
        else
          match json with
          | JsonInvalid => (c, internal_error)
          | JsonNull => (c, internal_error)
          | JsonPrimitive => establish c ∅ uid
          | JsonObject d => establish c d uid
          end
    end.

(** [POST /api/logout]. *)
Definition logout (c : ctx) : ctx * response :=
  match session c with
  | None => (c, uncaught)
  | Some _ =>
      let '(c', err) := destroy c in
      match err with
      | Some _ => (c', error 500 "Logout failed")
      | None => (c', mkResponse 200 (Text "OK"))
      end
  end.

(** [GET /api/user]. *)
Definition current_user (c : ctx) : ctx * response :=
  match session c with
  | None => (c, uncaught)
  | Some s =>
      match user s with
      | None => (c, error 401 "Not authenticated")
      | Some u =>
          (c, mkResponse 200 (Json (stringify_fields
                (<["id" := su_id u]> (<["username" := su_username u]>
                (<["role" := su_role u]> ∅))))))
      end
  end.

End Auth.

Import Auth.

(** ** [server/routes.ts] *)

Module Routes.

(** The routes [registerRoutes] and [setupAuth] install. *)
Inductive route : Type :=
| GetSensors
| PostSensorsConnect
| PostSensorsExtract
| GetMeasurements
| GetMeasurementsRecent
| GetMeasurementsExport
| PostMeasurements
| GetUploads
| GetAdminUsers
| PatchAdminUserRole
| PostUploads
| PostLogin
| PostLogout
| GetUser.

(** The authorization middleware in front of a handler. *)
Inductive guard : Type :=
| Unguarded
| NeedAuth
| NeedRole (r : UserRole).

Definition guard_of (r : route) : guard :=
  match r with
  | GetSensors => Unguarded
  | PostSensorsConnect => NeedRole Technician
  | PostSensorsExtract => NeedRole Technician
  | GetMeasurements => Unguarded
  | GetMeasurementsRecent => Unguarded
  | GetMeasurementsExport => NeedRole Technician
  | PostMeasurements => NeedAuth
  | GetUploads => NeedAuth
  | GetAdminUsers => NeedRole Admin
  | PatchAdminUserRole => NeedRole Admin
  | PostUploads => NeedRole Technician
  | PostLogin => Unguarded
  | PostLogout => Unguarded
  | GetUser => Unguarded
  end.

Definition run_guard (g : guard) (c : ctx) : step :=
  match g with
  | Unguarded => Next
  | NeedAuth =>
      match session c with
      | None => Reply uncaught
      | Some s => requireAuth s
      end
  | NeedRole r =>
      match session c with
      | None => Reply uncaught
      | Some s => requireRole r s
      end
  end.

(** The process state between requests. *)
Record World : Type := mkWorld {
  storage : MemStorage;
  sessions : gmap string data
}.

(** What a request carries: the session id of its signed cookie,
    [req.params.id] and the parsed JSON body. *)
Record Request : Type := mkRequest {
  cookie : option string;
  param_id : string;
  req_body : obj
}.

(** What the outside supplies while a request is served: the id the
    session middleware draws if it generates a session, the id
    [regenerate] draws, and the collaborator's answer to a login. *)
Record Outside : Type := mkOutside {
  uid_enter : string;
  uid_regenerate : string;
  collaborator : fetch_result
}.

Record Outcome : Type := mkOutcome {
  world : World;
  response : Http.response;
  set_cookie : option string
}.

(** [["admin", "technician", "user"].includes(role)], with the role it
    names. *)
Definition included_role (v : value) : option UserRole :=
  match v with
  | VStr s =>
      if String.eqb s "admin" then Some Admin
      else if String.eqb s "technician" then Some Technician
      else if String.eqb s "user" then Some User
      else None
  | _ => None
  end.

(** [({ password, ...rest }) => rest], then [JSON.stringify]. *)
Definition sanitize (u : obj) : obj := stringify_fields (delete "password" u).

Definition handler : Type :=
  MemStorage -> ctx -> Request -> Outside -> MemStorage * ctx * Http.response.

(** [GET /api/sensors]; [getSensors] does not throw, so the [catch]
    clause is not reached. *)
Definition get_sensors : handler :=
  fun st c _ _ => (st, c, mkResponse 200 (JsonSensors (getSensors st))).

(** [GET /api/measurements]. *)
Definition get_measurements : handler :=
  fun st c _ _ => (st, c, mkResponse 200 (JsonMeasurements (getMeasurements st))).

(** [GET /api/measurements/recent]. *)
Definition get_measurements_recent : handler :=
  fun st c _ _ => (st, c, mkResponse 200 (JsonMeasurements (getRecentMeasurements st 3))).

(** [GET /api/admin/users]. *)
Definition get_admin_users : handler :=
  fun st c _ _ => (st, c, mkResponse 200 (JsonList (sanitize <$> getAllUsers st))).

(** [PATCH /api/admin/users/:id/role]. *)
Definition patch_admin_user_role : handler :=
  fun st c rq _ =>
    match included_role (get (req_body rq) "role") with
    | None => (st, c, message 400 "Invalid role")
    | Some role =>
        match updateUserRole st (param_id rq) role with
        | Ok (st', updatedUser) => (st', c, mkResponse 200 (Json (sanitize updatedUser)))
        | Throw msg =>
            if String.eqb msg "User not found"
            then (st, c, message 404 "User not found")
            else (st, c, message 500 "Failed to update user role")
        end
    end.

Definition post_login : handler :=
  fun st c rq o =>
    let '(c', r) := login c (req_body rq) (collaborator o) (uid_regenerate o) in
    (st, c', r).

Definition post_logout : handler :=
  fun st c _ _ => let '(c', r) := logout c in (st, c', r).

Definition get_user : handler :=
  fun st c _ _ => let '(c', r) := current_user c in (st, c', r).

(** The handlers embedded here; the others (simulated sensor readings
    drawn at random, multipart uploads, CSV export) are not. *)
Definition handler_of (r : route) : option handler :=
  match r with
  | GetSensors => Some get_sensors
  | GetMeasurements => Some get_measurements
  | GetMeasurementsRecent => Some get_measurements_recent
  | GetAdminUsers => Some get_admin_users
  | PatchAdminUserRole => Some patch_admin_user_role
  | PostLogin => Some post_login
  | PostLogout => Some post_logout
  | GetUser => Some get_user
  | _ => None
  end.

Definition finish (st : MemStorage) (c : ctx) (r : Http.response) : Outcome :=
  let '(ss, ck) := leave c in mkOutcome (mkWorld st ss) r ck.

(** One request through the session middleware, the route's guard and
    its handler.  [None] only where the guard lets the request through
    to a handler that is not embedded. *)
Definition serve (r : route) (w : World) (rq : Request) (o : Outside) : option Outcome :=
  let c := enter (sessions w) (cookie rq) (uid_enter o) in
  match run_guard (guard_of r) c with
  | Reply resp => Some (finish (storage w) c resp)
  | Next =>
      match handler_of r with
      | None => None
      | Some h =>
          let '(st, c', resp) := h (storage w) c rq o in
          Some (finish st c' resp)
      end
  end.

(** The identity a session id gives access to. *)
Definition identity_at (ss : gmap string data) (sid : string) : option SessionUser :=
  ss !! sid ≫= user.

(** The session ids a request holds before its handler runs: the id in
    its cookie and the id of [req.session] on entry. *)
Definition presented (w : World) (rq : Request) (o : Outside) (sid : string) : Prop :=
  cookie rq = Some sid \/ sid = sessionID (enter (sessions w) (cookie rq) (uid_enter o)).


(** The object [/api/login] reads the identity from, when the
    collaborator accepts the credentials. *)
Definition accepted (reply : fetch_result) : option obj :=
  match reply with
  | FetchResponse code (JsonObject d) => if ok code then Some d else None
  | FetchResponse code JsonPrimitive => if ok code then Some ∅ else None
  | _ => None
  end.

(** The five properties [/api/login] copies. *)
Definition login_keys : list string :=
  [ "id"; "username"; "role"; "access_token"; "token_type" ].

(** The session state and the reply of a login the collaborator
    accepts. *)
Definition established (c : ctx) (d : obj) (uid : string) : ctx * Http.response :=
  (mkCtx (delete (sessionID c) (store c)) (cookieId c) uid
         (Some (mkData (Some (identity_of d))))
         (originalId c) (originalHash c) (savedHash c),
   mkResponse 200 (Json (stringify_fields (login_body d)))).

(** The replies of a login that is refused. *)
Definition login_refusals : list Http.response :=
  [ error 400 "Username and password are required";
    error 401 "Invalid username or password";
    internal_error ].

(** Newest first. *)
Definition newer_or_same (a b : Measurement) : Prop := m_timestamp b <= m_timestamp a.

End Routes.

Import Routes.

(** ** Sample data *)

Module Sample.

Definition credentials : obj :=
  <["username" := VStr "admin"]> (<["password" := VStr "admin123"]> ∅).

(** What the collaborator answers to good credentials. *)
Definition identity : obj :=
  <["id" := VStr "1"]> (<["username" := VStr "admin"]> (<["role" := VStr "admin"]>
  (<["access_token" := VStr "secret"]> (<["token_type" := VStr "bearer"]> ∅)))).

Definition admin : SessionUser :=
  mkSessionUser (VStr "1") (VStr "admin") (VStr "admin") (VStr "secret") (VStr "bearer").

(** A stored user, as [createDefaultAdmin] seeds one. *)
Definition cliente : obj :=
  <["id" := VStr "u-2"]> (<["username" := VStr "cliente"]>
  (<["password" := VStr "c57397b9.5e853a04"]> (<["role" := VStr "user"]> ∅))).

Definition store0 : MemStorage := mkMemStorage {[ "u-2" := cliente ]} [] [].

(** A process with one stored user, one session that holds no identity
    and one that holds the administrator's. *)
Definition world0 : World :=
  mkWorld store0 (<["sid-0" := fresh]> {[ "sid-9" := mkData (Some admin) ]}).

(** A login that presents the cookie of the session without identity. *)
Definition login_request : Request := mkRequest (Some "sid-0") "" credentials.

Definition accepting : Outside :=
  mkOutside "sid-1" "sid-2" (FetchResponse 200 (JsonObject identity)).

Definition rejecting : Outside :=
  mkOutside "sid-1" "sid-2" (FetchResponse 401 JsonInvalid).


(** The administrator changes the role of the stored user. *)
Definition role_request : Request :=
  mkRequest (Some "sid-9") "u-2" {[ "role" := VStr "technician" ]}.

End Sample.


(** ** JavaScript [Map]s in insertion order *)

Module JsMap.

Section Ops.

Context {V : Type}.

(** [m.get(k)]. *)
Fixpoint get (m : list (string * V)) (k : string) : option V :=
  match m with
  | [] => None
  | (k', v) :: m' => if String.eqb k' k then Some v else get m' k
  end.

(** [m.has(k)]. *)
Definition has (m : list (string * V)) (k : string) : bool :=
  if get m k is Some _ then true else false.

(** [m.set(k, v)]: an existing key keeps its place, a new key goes
    last. *)
Fixpoint set (m : list (string * V)) (k : string) (v : V) : list (string * V) :=
  match m with
  | [] => [(k, v)]
  | (k', v') :: m' =>
      if String.eqb k' k then (k, v) :: m' else (k', v') :: set m' k v
  end.

(** [m.delete(k)]: the map without the key, and whether it was there. *)
Definition delete (m : list (string * V)) (k : string) : list (string * V) * bool :=
  (List.filter (fun kv => negb (String.eqb kv.1 k)) m, has m k).

(** A [Map] holds each key once. *)
Definition wf (m : list (string * V)) : Prop := NoDup m.*1.

End Ops.

End JsMap.

(** ** [server/storage.ts]: the other methods of [MemStorage] *)

Module Crud.

(** [InsertUser] rows are objects; [InsertSensor] and
    [InsertMeasurement] are the rows without the generated columns, an
    optional column being [None] when it is absent or [null]. *)
Record InsertSensor : Type := mkInsertSensor {
  ins_name : string;
  ins_type : string;
  ins_isActive : option bool;
  ins_latitude : option Q;
  ins_longitude : option Q
}.

Record InsertMeasurement : Type := mkInsertMeasurement {
  inm_sensorId : string;
  inm_measurementType : string;
  inm_value : Q;
  inm_unit : string;
  inm_latitude : Q;
  inm_longitude : Q;
  inm_status : option string;
  inm_satelliteData : option string;
  inm_vegetationIndex : option Q
}.

(** [Partial<Sensor>]: a property is absent, or holds a value of its
    column (which is [null] for [Some None]). *)
Record SensorUpdates : Type := mkSensorUpdates {
  upd_id : option string;
  upd_name : option string;
  upd_type : option string;
  upd_isActive : option (option bool);
  upd_lastSeen : option (option Z);
  upd_latitude : option (option Q);
  upd_longitude : option (option Q)
}.

Definition with_users (st : MemStorage) (us : gmap string obj) : MemStorage :=
  mkMemStorage us (sensors st) (measurements st).

Definition with_sensors (st : MemStorage) (ss : list (string * Sensor)) : MemStorage :=
  mkMemStorage (users st) ss (measurements st).

Definition with_measurements (st : MemStorage) (ms : list (string * Measurement))
    : MemStorage :=
  mkMemStorage (users st) (sensors st) ms.

(** [getUserByUsername(username)]: the first user, in the order of
    [getAllUsers], whose [username] is strictly equal to the argument. *)
Definition getUserByUsername (st : MemStorage) (username : string) : option obj :=
  List.find (fun u => bool_decide (get u "username" = VStr username)) (getAllUsers st).

(** [createUser(insertUser)], with the id [randomUUID()] returns:
    [{ ...insertUser, id }]. *)
Definition createUser (st : MemStorage) (insertUser : obj) (id : string)
    : MemStorage * obj :=
  let user := <["id" := VStr id]> insertUser in
  (with_users st (<[id := user]> (users st)), user).

(** [getSensor(id)]. *)
Definition getSensor (st : MemStorage) (id : string) : option Sensor :=
  JsMap.get (sensors st) id.

(** [createSensor(insertSensor)], with the id and the date drawn. *)
Definition createSensor (st : MemStorage) (ins : InsertSensor) (id : string) (now : Z)
    : MemStorage * Sensor :=
  let sensor :=
    mkSensor id (ins_name ins) (ins_type ins)
      (Some (default false (ins_isActive ins)))
      (Some now) (ins_latitude ins) (ins_longitude ins) in
  (with_sensors st (JsMap.set (sensors st) id sensor), sensor).

(** [{ ...sensor, ...updates }]. *)
Definition merge_sensor (s : Sensor) (u : SensorUpdates) : Sensor :=
  mkSensor (default (sensor_id s) (upd_id u))
           (default (sensor_name s) (upd_name u))
           (default (sensor_type s) (upd_type u))
           (default (sensor_isActive s) (upd_isActive u))
           (default (sensor_lastSeen s) (upd_lastSeen u))
           (default (sensor_latitude s) (upd_latitude u))
           (default (sensor_longitude s) (upd_longitude u)).

(** [updateSensor(id, updates)]. *)
Definition updateSensor (st : MemStorage) (id : string) (updates : SensorUpdates)
    : result (MemStorage * Sensor) :=
  match JsMap.get (sensors st) id with
  | None => Throw "Sensor not found"
  | Some sensor =>
      let updatedSensor := merge_sensor sensor updates in
      Ok (with_sensors st (JsMap.set (sensors st) id updatedSensor), updatedSensor)
  end.

(** [deleteSensor(id)]. *)
Definition deleteSensor (st : MemStorage) (id : string) : MemStorage * bool :=
  let '(ss, was) := JsMap.delete (sensors st) id in (with_sensors st ss, was).

(** [getMeasurement(id)]. *)
Definition getMeasurement (st : MemStorage) (id : string) : option Measurement :=
  JsMap.get (measurements st) id.

(** [getMeasurementsBySensor(sensorId)]. *)
Definition getMeasurementsBySensor (st : MemStorage) (sensorId : string)
    : list Measurement :=
  sort_desc (List.filter (fun m => String.eqb (m_sensorId m) sensorId)
               (measurements st).*2).

(** [createMeasurement(insertMeasurement)], with the id and the date
    drawn. *)
Definition createMeasurement (st : MemStorage) (ins : InsertMeasurement)
    (id : string) (now : Z) : MemStorage * Measurement :=
  let measurement :=
    mkMeasurement id (inm_sensorId ins) (inm_measurementType ins) (inm_value ins)
      (inm_unit ins) (inm_latitude ins) (inm_longitude ins) now
      (Some (default "good" (inm_status ins)))
      (inm_satelliteData ins) (inm_vegetationIndex ins) in
  (with_measurements st (JsMap.set (measurements st) id measurement), measurement).

(** [deleteMeasurement(id)]. *)
Definition deleteMeasurement (st : MemStorage) (id : string) : MemStorage * bool :=
  let '(ms, was) := JsMap.delete (measurements st) id in (with_measurements st ms, was).

End Crud.

Import Crud.

(** ** [server/routes.ts]: the sensor routes *)

Module Sensors.

(** What a handler computes from [Math.random()] for one measurement:
    the value [raw], and [rounded], the floating-point result of
    [Math.round(value * 100) / 100].  Both are taken from outside: the
    rounding is not computed here, and nothing below relates the two. *)
Record reading : Type := mkReading { raw : Q; rounded : Q }.

(** What the outside supplies to [/api/sensors/extract]: for each of the
    three measurement types the reading, the id and the date of the row. *)
Record draw : Type := mkDraw { drawn : reading; row_id : string; row_date : Z }.

(** What the outside supplies to [/api/sensors/connect]: the name and
    the coordinates computed from [Math.random()], the id and the date. *)
Record connection : Type := mkConnection {
  conn_name : string;
  conn_latitude : Q;
  conn_longitude : Q;
  conn_id : string;
  conn_date : Z
}.

Section Handlers.

(** The numbers written [37.7749] and [-122.4194]. *)
Variables (default_latitude default_longitude : Q).

(** [x || d] on a nullable number. *)
Definition number_or (x : option Q) (d : Q) : Q :=
  match x with
  | Some q => if Qeq_bool q 0 then d else q
  | None => d
  end.

(** [s.isActive] as a condition. *)
Definition active (s : Sensor) : bool :=
  match sensor_isActive s with
  | Some b => b
  | None => false
  end.

(** The unit of a measurement type, as the [switch] assigns it. *)
Definition unit_of (type : string) : string :=
  if String.eqb type "CO2" then "ppm"
  else if String.eqb type "temperature" then "C"
  else if String.eqb type "humidity" then "%"
  else "unit".

(** [value > (type === "CO2" ? 400 : 75) ? "moderate" : "good"]. *)
Definition status_of (type : string) (value : Q) : string :=
  let threshold := if String.eqb type "CO2" then 400%Q else 75%Q in
  if Qle_bool value threshold then "good" else "moderate".

(** One turn of the inner loop: the row for [type] is created and
    pushed. *)
Definition extract_one (sensor : Sensor) (acc : MemStorage * list Measurement)
    (td : string * draw) : MemStorage * list Measurement :=
  let '(st, measurements) := acc in
  let '(type, d) := td in
  let '(st', measurement) :=
    createMeasurement st
      (mkInsertMeasurement (sensor_id sensor) type (rounded (drawn d)) (unit_of type)
         (number_or (sensor_latitude sensor) default_latitude)
         (number_or (sensor_longitude sensor) default_longitude)
         (Some (status_of type (raw (drawn d)))) None None)
      (row_id d) (row_date d) in
  (st', (measurements ++ [measurement])%list).

(** [POST /api/sensors/extract], behind its guard: the loops run over
    the first active sensor and the three types. *)
Definition post_sensors_extract (st : MemStorage) (d1 d2 d3 : draw)
    : MemStorage * Http.response :=
  let activeSensors := List.filter active (getSensors st) in
  if Nat.eqb (length activeSensors) 0
  then (st, message 400 "No active sensors connected")
  else
    let '(st', measurements) :=
      foldl (fun acc sensor =>
               foldl (extract_one sensor) acc
                 [("CO2", d1); ("temperature", d2); ("humidity", d3)])
            (st, []) (take 1 activeSensors) in
    (st', mkResponse 200
            (Json (<["message" := VStr "Data extracted successfully"]>
                   (<["measurements" := VNum (Z.of_nat (length measurements))]> ∅)))).

(** [POST /api/sensors/connect], behind its guard; the sensor in the
    reply is a nested object. *)
Definition post_sensors_connect (st : MemStorage) (c : connection)
    : MemStorage * Http.response :=
  let '(st', sensor) :=
    createSensor st
      (mkInsertSensor (conn_name c) "environmental" (Some true)
         (Some (conn_latitude c)) (Some (conn_longitude c)))
      (conn_id c) (conn_date c) in
  (st', mkResponse 200
          (Json (<["message" := VStr "Sensor connected successfully"]>
                 (<["sensor" := VObject]> ∅)))).

(** A request through the session middleware, the guard of route [r]
    and a handler that works on the storage alone. *)
Definition serve_storage (r : route) (h : MemStorage -> MemStorage * Http.response)
    (w : World) (rq : Request) (o : Outside) : Outcome :=
  let c := enter (sessions w) (cookie rq) (uid_enter o) in
  match run_guard (guard_of r) c with
  | Reply resp => finish (storage w) c resp
  | Next => let '(st, resp) := h (storage w) in finish st c resp
  end.

End Handlers.

End Sensors.

Import Sensors.

(** ** Client: what the pages do with the identity *)

Module Pages.

Import Client.

(** [navItems] of [MobileNav] and [DesktopHeader]: the path and whether
    the entry is [adminOnly]. *)
Definition navItems : list (string * bool) :=
  [ ("/", false); ("/program", false); ("/upload", false);
    ("/analytics", false); ("/admin", true); ("/settings", false) ].

(** Whether an entry is rendered:
    [!(item.adminOnly && (!user || user.role !== 'admin'))]. *)
Definition nav_visible (user : option CachedUser) (item : string * bool) : bool :=
  negb (item.2 &&
        match user with
        | None => true
        | Some u => negb (bool_decide (cu_role u = VStr "admin"))
        end).

(** The paths of the entries rendered. *)
Definition nav_paths (user : option CachedUser) : list string :=
  (List.filter (nav_visible user) navItems).*1.

(** What [RoleGuard] renders. *)
Inductive rendering : Type :=
| Children
| Nothing
| Fallback
| AccessRestricted (requiredRole : option UserRole).

(** [RoleGuard]; [fallback] tells whether a fallback is given. *)
Definition RoleGuard (requiredRole : option UserRole)
    (requiredPermission : option Permission) (fallback hideWhenNoAccess : bool)
    (user : option CachedUser) : rendering :=
  if guard_hasAccess requiredRole requiredPermission user then Children
  else if hideWhenNoAccess then Nothing
  else if fallback then Fallback
  else AccessRestricted requiredRole.

(** The [counts] object of [getRoleCounts]: its own properties, [None]
    being NaN. *)
Abbreviation counts := (gmap string (option Z)).

(** [counts[role]++]: a property that is not an own number (missing, or
    inherited from [Object.prototype]) becomes NaN. *)
Definition increment (c : counts) (role : string) : counts :=
  <[role := match c !! role with
            | Some (Some n) => Some (n + 1)
            | _ => None
            end]> c.

(** [getRoleCounts()], on the property keys that the roles of the listed
    users convert to; [None] when the list has not been fetched. *)
Definition getRoleCounts (users : option (list string)) : counts :=
  let zero : counts :=
    <["admin" := Some 0]> (<["technician" := Some 0]> (<["user" := Some 0]> ∅)) in
  match users with
  | None => zero
  | Some l => foldl increment zero l
  end.

End Pages.

(** ** Client: [AuthProvider] *)

Module Provider.

Import Client.

(** What [fetch] and [response.json()] give the client: the request
    fails, or an answer arrives with its status and a body that is not
    JSON, is a JSON object, or is another JSON value ([VObject] standing
    for an array, which is truthy and has none of the properties the
    provider reads). *)
Inductive parsed : Type :=
| NotJson
| JsonObj (o : obj)
| JsonValue (v : value).

Inductive http : Type :=
| NetworkFailure
| Answer (code : Z) (json : parsed).

(** What the server's reply is to the client. *)
Definition over_http (r : Http.response) : http :=
  Answer (status r)
    match body r with
    | Json o => JsonObj o
    | Text _ => NotJson
    | _ => JsonValue VObject
    end.

(** The cached [user]: [None] when it is falsy, otherwise the own
    properties of the cached value (a truthy primitive has none of those
    the provider reads). *)
Definition cache_of (j : parsed) : option obj :=
  match j with
  | NotJson => None
  | JsonObj o => Some o
  | JsonValue v => if truthy v then Some ∅ else None
  end.

(** The identity the permission closures read off the cache. *)
Definition cached_user (cache : option obj) : option CachedUser :=
  (fun o => mkCachedUser (get o "id") (get o "username") (get o "role")) <$> cache.

(** [queryFn]: [null] on 401, on any other failure and on a body that
    is not JSON. *)
Definition queryFn (answer : http) : option obj :=
  match answer with
  | NetworkFailure => None
  | Answer code json =>
      if Z.eqb code 401 then None
      else if negb (Auth.ok code) then None
      else cache_of json
  end.

(** What a mutation shows: the welcome with the username, the server's
    error text, the provider's default text, the error of the runtime,
    or the notice of a logout. *)
Inductive toast : Type :=
| Welcome (username : value)
| ErrorText (msg : value)
| DefaultError
| RuntimeError
| LoggedOut.

(** [loginMutation]: the cache and the toast after the answer.  On a
    2xx answer [onSuccess] sets the cache before it reads the username,
    so a [null] body clears the cache and then raises. *)
Definition loginMutation (cache : option obj) (answer : http) : option obj * toast :=
  match answer with
  | NetworkFailure => (cache, RuntimeError)
  | Answer code json =>
      if negb (Auth.ok code) then
        match json with
        | NotJson => (cache, RuntimeError)
        | JsonObj o =>
            if truthy (get o "error") then (cache, ErrorText (get o "error"))
            else (cache, DefaultError)
        | JsonValue VNull | JsonValue VUndefined => (cache, RuntimeError)
        | JsonValue _ => (cache, DefaultError)
        end
      else
        match json with
        | NotJson => (cache, RuntimeError)
        | JsonObj o => (Some o, Welcome (get o "username"))
        | JsonValue VNull | JsonValue VUndefined => (None, RuntimeError)
        | JsonValue v => (cache_of (JsonValue v), Welcome VUndefined)
        end
  end.

(** [logoutMutation]. *)
Definition logoutMutation (cache : option obj) (answer : http) : option obj * toast :=
  match answer with
  | NetworkFailure => (cache, RuntimeError)
  | Answer code _ =>
      if negb (Auth.ok code) then (cache, DefaultError) else (None, LoggedOut)
  end.

End Provider.

(** ** More sample data *)

Module Fixtures.

(** An inactive sensor stored before an active one. *)
Definition probe0 : Sensor :=
  mkSensor "s-0" "Imported Sensor" "environmental" (Some false) None None None.

Definition probe1 : Sensor :=
  mkSensor "s-1" "Sensor #007" "environmental" (Some true) (Some 900)
           (Some (3 # 2)%Q) (Some (-5 # 1)%Q).

(** Two rows of the active sensor, the newer stored first. *)
Definition row1 : Measurement :=
  mkMeasurement "m-1" "s-1" "CO2" (410 # 1)%Q "ppm" (3 # 2)%Q (-5 # 1)%Q 100
                (Some "moderate") None None.

Definition row2 : Measurement :=
  mkMeasurement "m-2" "s-1" "humidity" (50 # 1)%Q "%" (3 # 2)%Q (-5 # 1)%Q 50
                (Some "good") None None.

Definition store1 : MemStorage :=
  mkMemStorage {[ "u-2" := Sample.cliente ]}
    [("s-0", probe0); ("s-1", probe1)]
    [("m-1", row1); ("m-2", row2)].

(** The same storage without the active sensor. *)
Definition store2 : MemStorage :=
  mkMemStorage {[ "u-2" := Sample.cliente ]} [("s-0", probe0)] [].

Definition cliente_session : SessionUser :=
  mkSessionUser (VStr "u-2") (VStr "cliente") (VStr "user") VUndefined VUndefined.

Definition tecnico_session : SessionUser :=
  mkSessionUser (VStr "u-3") (VStr "tecnico") (VStr "technician") VUndefined VUndefined.

(** A process with the sessions of an administrator, a technician and
    a user. *)
Definition world1 : World :=
  mkWorld store1
    (<["sid-9" := mkData (Some Sample.admin)]>
     (<["sid-7" := mkData (Some tecnico_session)]>
      {[ "sid-5" := mkData (Some cliente_session) ]})).

Definition as_admin : Request := mkRequest (Some "sid-9") "" ∅.
Definition as_tecnico : Request := mkRequest (Some "sid-7") "" ∅.
Definition as_cliente : Request := mkRequest (Some "sid-5") "" ∅.
Definition anonymous : Request := mkRequest None "" ∅.

(** The request of the browser after the sample login. *)
Definition after_login : Request := mkRequest (Some "sid-2") "" ∅.

(** A collaborator that answers 200 with the JSON string ["ok"]. *)
Definition terse : Outside := mkOutside "sid-1" "sid-2" (FetchResponse 200 JsonPrimitive).

Definition new_row : InsertMeasurement :=
  mkInsertMeasurement "s-1" "temperature" (21 # 1)%Q "C" (3 # 2)%Q (-5 # 1)%Q
                      None None None.

Definition draw1 : draw := mkDraw (mkReading (4123456 # 10000) (41235 # 100)) "m-7" 200.
Definition draw2 : draw := mkDraw (mkReading (251 # 10) (251 # 10)) "m-8" 201.
Definition draw3 : draw := mkDraw (mkReading (80 # 1) (80 # 1)) "m-9" 202.

Definition cached_tecnico : Client.CachedUser :=
  Client.mkCachedUser (VStr "u-3") (VStr "tecnico") (VStr "technician").

Definition cached_admin : Client.CachedUser :=
  Client.mkCachedUser (VStr "1") (VStr "admin") (VStr "admin").

End Fixtures.
(** * Properties *)

(** Case analysis on what the session middleware writes back. *)
Ltac session_cases :=
  unfold leave, shouldSave, shouldSetCookie, isSaved, isModified; simpl;
  repeat case_bool_decide; simpl; try congruence.

(** ** The role hierarchy *)

Section Hierarchy.

Lemma roleHierarchy_lookup (k : string) :
  roleHierarchy !! k =
    if String.eqb k "admin" then Some 3
    else if String.eqb k "technician" then Some 2
    else if String.eqb k "user" then Some 1
    else None.
Proof.
  unfold roleHierarchy.
  destruct (String.eqb_spec k "admin") as [->|Ha]; [reflexivity|].
  rewrite lookup_insert_ne by congruence.
  destruct (String.eqb_spec k "technician") as [->|Ht]; [reflexivity|].
  rewrite lookup_insert_ne by congruence.
  destruct (String.eqb_spec k "user") as [->|Hu]; [reflexivity|].
  rewrite lookup_insert_ne by congruence.
  apply lookup_empty.
Qed.

Lemma recognized_role_name (r : UserRole) : recognized (role_name r).
Proof. destruct r; unfold recognized; simpl; auto. Qed.

Lemma recognized_inv (s : string) : recognized s -> exists r, s = role_name r.
Proof.
  intros [-> | [-> | ->]]; [exists Admin | exists Technician | exists User]; reflexivity.
Qed.

Lemma rank_unrecognized (s : string) : ~ recognized s -> rank s = 0.
Proof.
  intros H. unfold rank, recognized in *.
  destruct (String.eqb_spec s "admin"); [tauto|].
  destruct (String.eqb_spec s "technician"); [tauto|].
  destruct (String.eqb_spec s "user"); [tauto|].
  reflexivity.
Qed.

Lemma rank_role_name_pos (r : UserRole) : 1 <= rank (role_name r) <= 3.
Proof. destruct r; vm_compute; split; discriminate. Qed.

Lemma required_level_rank (r : UserRole) :
  required_level r = ENum (rank (role_name r)).
Proof. destruct r; reflexivity. Qed.

(** Reading the literal at a string: its own number for a recognized
    role, otherwise whatever the prototype chain holds. *)
Lemma roleHierarchy_get_spec (s : string) :
  roleHierarchy_get s =
    if decide (recognized s) then ENum (rank s)
    else if inherited s then EBuiltin else EMissing.
Proof.
  unfold roleHierarchy_get. rewrite roleHierarchy_lookup.
  unfold rank, recognized.
  destruct (String.eqb_spec s "admin") as [->|Ha]; [reflexivity|].
  destruct (String.eqb_spec s "technician") as [->|Ht]; [reflexivity|].
  destruct (String.eqb_spec s "user") as [->|Hu]; [reflexivity|].
  rewrite decide_False by tauto. reflexivity.
Qed.

(** The client comparison is the rank comparison of the specification
    on every string. *)
Lemma hasRole_rank (s : string) (required : UserRole) :
  Client.hasRole (VStr s) required = Z.geb (rank s) (rank (role_name required)).
Proof.
  unfold Client.hasRole. simpl roleHierarchy_at.
  rewrite roleHierarchy_get_spec, required_level_rank.
  destruct (decide (recognized s)) as [Hs|Hs]; [reflexivity|].
  rewrite (rank_unrecognized s Hs).
  pose proof (rank_role_name_pos required) as Hr.
  assert (Z.geb 0 (rank (role_name required)) = false) as ->.
  { rewrite Z.geb_leb. apply Z.leb_gt. lia. }
  destruct (inherited s); reflexivity.
Qed.

(** On the three roles [hasRole] is the order of the ranks, and it is
    false on every other string. *)
Lemma hasRole_roles (r1 r2 : UserRole) :
  Client.hasRole (VStr (role_name r1)) r2 = true <->
  rank (role_name r1) >= rank (role_name r2).
Proof. rewrite hasRole_rank, Z.geb_leb, Z.leb_le. lia. Qed.

Lemma hasRole_unrecognized (s : string) (required : UserRole) :
  ~ recognized s -> Client.hasRole (VStr s) required = false.
Proof.
  intros Hs. rewrite hasRole_rank, (rank_unrecognized s Hs), Z.geb_leb.
  apply Z.leb_gt. pose proof (rank_role_name_pos required). lia.
Qed.

(** The server's level is the rank unless the role names a member of
    [Object.prototype]. *)
Lemma userLevel_rank (s : string) :
  inherited s = false -> userLevel (VStr s) = ENum (rank s).
Proof.
  intros Hi. unfold userLevel. simpl roleHierarchy_at.
  rewrite roleHierarchy_get_spec.
  destruct (decide (recognized s)) as [Hs|Hs].
  - destruct Hs as [-> | [-> | ->]]; reflexivity.
  - rewrite Hi, (rank_unrecognized s Hs). reflexivity.
Qed.

Lemma userLevel_inherited (s : string) :
  inherited s = true -> userLevel (VStr s) = EBuiltin.
Proof.
  intros Hi. unfold userLevel. simpl roleHierarchy_at.
  rewrite roleHierarchy_get_spec.
  destruct (decide (recognized s)) as [Hs|Hs].
  - destruct Hs as [-> | [-> | ->]]; vm_compute in Hi; discriminate.
  - rewrite Hi. reflexivity.
Qed.

End Hierarchy.

(** ** The authorization middleware *)

Lemma requireAuth_401 (s : data) :
  requireAuth s = Reply (error 401 "Authentication required") <-> user s = None.
Proof.
  unfold requireAuth. destruct (user s); split; intros H; try reflexivity; discriminate.
Qed.

Lemma requireRole_401 (minRole : UserRole) (s : data) :
  requireRole minRole s = Reply (error 401 "Authentication required") <-> user s = None.
Proof.
  unfold requireRole. destruct (user s) as [u|]; split; intros H;
    try reflexivity; try discriminate.
  destruct (JS.lt _ _); discriminate.
Qed.

Section Middleware.

(** An identity whose role is the string [r]. *)
Variables (u : SessionUser) (r : string).
Hypothesis role_u : su_role u = VStr r.

(** Away from the names [Object.prototype] defines, [requireRole]
    compares ranks. *)
Lemma requireRole_off_prototype (minRole : UserRole) :
  inherited r = false ->
  requireRole minRole (mkData (Some u)) =
    if Z.ltb (rank r) (rank (role_name minRole))
    then Reply (error 403 "Insufficient permissions")
    else Next.
Proof.
  intros Hi. unfold requireRole. simpl.
  rewrite role_u, (userLevel_rank r Hi), required_level_rank. reflexivity.
Qed.

(** A role that names a member of [Object.prototype] passes every
    [requireRole]. *)
Lemma requireRole_inherited (minRole : UserRole) :
  inherited r = true -> requireRole minRole (mkData (Some u)) = Next.
Proof.
  intros Hi. unfold requireRole. simpl.
  rewrite role_u, (userLevel_inherited r Hi). reflexivity.
Qed.

(** Client and server agree on every permission for every role string
    that [Object.prototype] does not define. *)
Lemma permission_agrees_off_prototype (p : Client.Permission) (cu : Client.CachedUser) :
  Client.cu_role cu = VStr r ->
  inherited r = false ->
  Client.permission p (Some cu) = passes (requireRole (Client.minRole p) (mkData (Some u))).
Proof.
  intros Hcu Hi. rewrite (requireRole_off_prototype _ Hi).
  assert (forall m, m <> User ->
            Client.hasRole (or_else (VStr r) (VStr "user")) m
            = negb (Z.ltb (rank r) (rank (role_name m)))) as Hc.
  { intros m Hm. unfold or_else. simpl.
    destruct (String.eqb_spec r "") as [->|Hne]; simpl.
    - destruct m; try reflexivity. congruence.
    - rewrite hasRole_rank, Z.geb_leb, Z.leb_antisym. reflexivity. }
  destruct p; unfold Client.permission, Client.with_user, Client.minRole,
      Client.canAccessAnalytics, Client.canManageSensors, Client.canExportData,
      Client.canManageUsers, Client.canAccessAdvancedSettings;
    rewrite Hcu, Hc by discriminate; destruct (Z.ltb _ _); reflexivity.
Qed.

End Middleware.

(** C3.  Client and server permission checks do not agree on every role
    string: for the role ["constructor"], which [Object.prototype]
    defines, the client's user-management predicate is false while
    [requireRole("admin")] lets a session with that role pass. *)
Theorem permission_disagrees_on_constructor :
  let role := VStr "constructor" in
  Client.canManageUsers role = false /\
  Client.permission Client.PManageUsers
    (Some (Client.mkCachedUser (VStr "7") (VStr "eve") role)) = false /\
  passes (requireRole (Client.minRole Client.PManageUsers)
            (mkData (Some (mkSessionUser (VStr "7") (VStr "eve") role VUndefined VUndefined))))
    = true.
Proof. repeat split; reflexivity. Qed.

(** C4.  The server's level of a string outside the three roles is not
    always 0: for ["constructor"] the lookup yields the inherited
    function, which [|| 0] keeps, which converts to NaN and is below no
    required level; the client's [hasRole] is false on it. *)
Theorem userLevel_constructor_not_zero :
  ~ recognized "constructor" /\
  rank "constructor" = 0 /\
  userLevel (VStr "constructor") = EBuiltin /\
  to_number (userLevel (VStr "constructor")) = None /\
  (forall required, JS.lt (userLevel (VStr "constructor")) (required_level required) = false) /\
  (forall required, Client.hasRole (VStr "constructor") required = false).
Proof.
  split; [intros [H | [H | H]]; discriminate|].
  repeat split; try reflexivity; intros []; reflexivity.
Qed.

(** C5.  [requireRole(minRole)] does not answer 403 for every session
    whose role ranks below [minRole]: a session whose role is
    ["constructor"] has rank 0 and passes for every [minRole]. *)
Theorem requireRole_passes_constructor (minRole : UserRole) :
  let s := mkData (Some (mkSessionUser (VStr "7") (VStr "eve") (VStr "constructor")
                           VUndefined VUndefined)) in
  rank "constructor" < rank (role_name minRole) /\
  requireRole minRole s = Next /\
  run_guard (NeedRole minRole) (enter {[ "sid-1" := s ]} (Some "sid-1") "sid-2") = Next.
Proof. destruct minRole; repeat split; reflexivity. Qed.


(** ** Sessions *)

Lemma enter_session st ck uid : is_Some (session (enter st ck uid)).
Proof.
  unfold enter, generate. destruct ck as [c|]; [destruct (st !! c)|]; simpl; eauto.
Qed.

Lemma enter_store st ck uid : store (enter st ck uid) = st.
Proof.
  unfold enter, generate. destruct ck as [c|]; [destruct (st !! c)|]; reflexivity.
Qed.

Lemma enter_cookieId st ck uid : cookieId (enter st ck uid) = ck.
Proof.
  unfold enter, generate. destruct ck as [c|]; [destruct (st !! c)|]; reflexivity.
Qed.

(** The id of [req.session] on entry is the cookie's when it names a
    stored session, and the drawn one otherwise. *)
Lemma enter_sessionID st ck uid :
  sessionID (enter st ck uid) =
    match ck with
    | Some c => if st !! c is Some _ then c else uid
    | None => uid
    end.
Proof.
  unfold enter, generate. destruct ck as [c|]; [destruct (st !! c)|]; reflexivity.
Qed.

(** The session on entry is the stored one, or an empty one. *)
Lemma enter_user st ck uid s :
  session (enter st ck uid) = Some s ->
  user s = (ck ≫= identity_at st).
Proof.
  unfold enter, generate, identity_at.
  destruct ck as [c|]; simpl; [destruct (st !! c) eqn:E|]; simpl;
    intros [= <-]; reflexivity.
Qed.

(** A request that leaves its session alone writes no identity and
    sends no cookie. *)
Lemma leave_enter st ck uid :
  exists st',
    leave (enter st ck uid) = (st', None) /\
    (forall sid, identity_at st' sid = identity_at st sid) /\
    (ck <> Some uid -> st' = st).
Proof.
  unfold enter. destruct ck as [c|].
  - destruct (st !! c) as [sess|] eqn:E.
    + exists st. session_cases. auto.
    + unfold generate. session_cases.
      all: eexists; split; [reflexivity|]; split; [|congruence].
      * reflexivity.
      * intros sid. unfold identity_at.
        assert (c = uid) as <- by congruence.
        destruct (decide (sid = c)) as [->|Hs].
        -- rewrite lookup_insert_eq, E. reflexivity.
        -- rewrite lookup_insert_ne by congruence. reflexivity.
  - exists st. unfold generate. session_cases. auto.
Qed.

(** ** Login *)

Lemma establish_established c d uid :
  is_Some (session c) -> establish c d uid = established c d uid.
Proof. intros [s Hs]. unfold establish, established. rewrite Hs. reflexivity. Qed.

Lemma login_cases c body reply uid :
  is_Some (session c) ->
  (exists r, login c body reply uid = (c, r) /\ r ∈ login_refusals) \/
  (exists d, accepted reply = Some d /\ login c body reply uid = established c d uid).
Proof.
  intros Hs. unfold login, login_refusals.
  assert (forall r, r = error 400 "Username and password are required" \/
                    r = error 401 "Invalid username or password" \/
                    r = internal_error ->
                    exists r', (c, r) = (c, r') /\
                      r' ∈ [error 400 "Username and password are required";
                            error 401 "Invalid username or password"; internal_error])
    as refused.
  { intros r Hr. exists r. split; [reflexivity|]. rewrite !elem_of_cons. tauto. }
  destruct (negb (truthy (get body "username")) || negb (truthy (get body "password"))).
  { left. apply refused. auto. }
  destruct reply as [|code json].
  { left. apply refused. auto. }
  unfold accepted. destruct (ok code); simpl.
  - destruct json.
    1,2: left; apply refused; auto.
    all: right; eexists; (split; [reflexivity|]); apply establish_established, Hs.
  - left. destruct (Z.eqb code 401); apply refused; auto.
Qed.

Lemma serve_login w rq o :
  serve PostLogin w rq o =
    let c := enter (sessions w) (cookie rq) (uid_enter o) in
    let res := login c (req_body rq) (collaborator o) (uid_regenerate o) in
    Some (finish (storage w) res.1 res.2).
Proof.
  unfold serve. simpl. unfold post_login.
  destruct (login _ _ _ _). reflexivity.
Qed.

Lemma finish_eq st c r :
  finish st c r = mkOutcome (mkWorld st (leave c).1) r (leave c).2.
Proof. unfold finish. destruct (leave c). reflexivity. Qed.

Lemma finish_response st c r : response (finish st c r) = r.
Proof. unfold finish. destruct (leave c). reflexivity. Qed.

Lemma finish_storage st c r : storage (world (finish st c r)) = st.
Proof. unfold finish. destruct (leave c). reflexivity. Qed.

Lemma finish_sessions st c r : sessions (world (finish st c r)) = (leave c).1.
Proof. unfold finish. destruct (leave c). reflexivity. Qed.

Lemma finish_set_cookie st c r : set_cookie (finish st c r) = (leave c).2.
Proof. unfold finish. destruct (leave c). reflexivity. Qed.

Lemma login_body_lookup d k :
  login_body d !! k = if bool_decide (k ∈ login_keys) then Some (get d k) else None.
Proof.
  unfold login_body, login_keys.
  repeat match goal with
  | |- context [ <[?j := _]> _ !! k ] =>
      destruct (decide (k = j)) as [->|?];
      [ rewrite lookup_insert_eq; reflexivity
      | rewrite lookup_insert_ne by congruence ]
  end.
  rewrite lookup_empty, bool_decide_eq_false_2; [reflexivity|].
  rewrite !not_elem_of_cons. repeat split; try assumption. apply not_elem_of_nil.
Qed.

Lemma stringify_lookup o k v :
  stringify_fields o !! k = Some v <-> o !! k = Some v /\ v <> VUndefined.
Proof. unfold stringify_fields. rewrite map_lookup_filter_Some. reflexivity. Qed.

Lemma login_fields d k v :
  stringify_fields (login_body d) !! k = Some v <->
  k ∈ login_keys /\ d !! k = Some v /\ v <> VUndefined.
Proof.
  rewrite stringify_lookup, login_body_lookup. unfold get.
  case_bool_decide as Hk; split.
  - intros [[= <-] Hv]. destruct (d !! k); simpl in *; [auto|congruence].
  - intros (_ & -> & Hv). auto.
  - intros [? _]. discriminate.
  - intros [? _]. contradiction.
Qed.

(** C1, as the code has it.  The body of the 200 reply of [/api/login]
    holds the properties [id], [username], [role], [access_token] and
    [token_type] that the collaborator's reply defines, with the
    collaborator's values, and nothing else; in particular no
    [password]. *)
Theorem login_success_body w rq o out :
  serve PostLogin w rq o = Some out ->
  status (response out) = 200 ->
  exists d,
    accepted (collaborator o) = Some d /\
    body (response out) = Json (stringify_fields (login_body d)) /\
    (forall k v, fields (response out) !! k = Some v <->
                 k ∈ login_keys /\ d !! k = Some v /\ v <> VUndefined) /\
    fields (response out) !! "password" = None.
Proof.
  rewrite serve_login. cbv zeta. intros [= <-]. rewrite finish_response.
  destruct (login_cases (enter (sessions w) (cookie rq) (uid_enter o)) (req_body rq)
              (collaborator o) (uid_regenerate o) (enter_session _ _ _))
    as [(r & -> & Hr) | (d & Hd & ->)]; simpl.
  - intros Hst. exfalso. unfold login_refusals in Hr.
    rewrite !elem_of_cons, elem_of_nil in Hr.
    destruct Hr as [-> | [-> | [-> | []]]]; discriminate.
  - intros _. exists d. split; [assumption|]. split; [reflexivity|].
    unfold fields. simpl. split; [apply login_fields|].
    destruct (stringify_fields (login_body d) !! "password") as [v|] eqn:E; [|reflexivity].
    apply login_fields in E as [Hk _]. exfalso. revert Hk. unfold login_keys.
    rewrite !elem_of_cons, elem_of_nil. intros H. repeat destruct H as [H|H]; try discriminate.
    exact H.
Qed.

Lemma login_success_body_witness :
  exists out,
    serve PostLogin Sample.world0 Sample.login_request Sample.accepting = Some out /\
    status (response out) = 200 /\
    exists d,
      accepted (collaborator Sample.accepting) = Some d /\
      body (response out) = Json (stringify_fields (login_body d)) /\
      (forall k v, fields (response out) !! k = Some v <->
                   k ∈ login_keys /\ d !! k = Some v /\ v <> VUndefined) /\
      fields (response out) !! "password" = None.
Proof.
  eexists. split; [vm_compute; reflexivity|]. split; [reflexivity|].
  apply (login_success_body Sample.world0 Sample.login_request Sample.accepting);
    vm_compute; reflexivity.
Defined.

(** C1 fails as stated: when the collaborator returns an access token,
    the reply to the caller carries it. *)
Lemma login_reply_carries_access_token :
  exists out,
    serve PostLogin Sample.world0 Sample.login_request Sample.accepting = Some out /\
    status (response out) = 200 /\
    fields (response out) !! "access_token" = Some (VStr "secret") /\
    fields (response out) !! "token_type" = Some (VStr "bearer") /\
    ~ (forall k, is_Some (fields (response out) !! k) -> k ∈ ["id"; "username"; "role"]).
Proof.
  eexists. split; [reflexivity|]. repeat split; try (vm_compute; reflexivity).
  intros H. specialize (H "access_token"). 
  assert ("access_token" ∈ ["id"; "username"; "role"]) as Hin.
  { apply H. vm_compute. eauto. }
  rewrite !elem_of_cons, elem_of_nil in Hin.
  destruct Hin as [? | [? | [? | []]]]; discriminate.
Qed.

(** What refuses a login, by cause. *)
Lemma login_refusal_causes c body reply uid :
  let r := (login c body reply uid).2 in
  let missing := negb (truthy (get body "username")) || negb (truthy (get body "password")) in
  (missing = true -> r = error 400 "Username and password are required") /\
  (missing = false -> reply = FetchRejects -> r = internal_error) /\
  (forall json, missing = false -> reply = FetchResponse 401 json ->
     r = error 401 "Invalid username or password") /\
  (forall code json, missing = false -> reply = FetchResponse code json ->
     ok code = false -> code <> 401 -> r = internal_error).
Proof.
  cbv zeta. unfold login. repeat split.
  - intros ->. reflexivity.
  - intros -> ->. reflexivity.
  - intros json -> ->. reflexivity.
  - intros code json -> -> -> Hne. simpl.
    destruct (Z.eqb_spec code 401); [contradiction|reflexivity].
Qed.

(** C6.  A login that does not answer 200 leaves the user store and the
    identity of every session as they were, sends no session cookie, and
    answers one of the three refusals, whose body has the single
    property [error]. *)
Theorem login_failure_leaves_no_session w rq o out :
  serve PostLogin w rq o = Some out ->
  status (response out) <> 200 ->
  storage (world out) = storage w /\
  (forall sid, identity_at (sessions (world out)) sid = identity_at (sessions w) sid) /\
  (cookie rq <> Some (uid_enter o) -> sessions (world out) = sessions w) /\
  set_cookie out = None /\
  response out ∈ login_refusals /\
  (exists code msg, response out = error code msg) /\
  (forall k, k <> "error" -> fields (response out) !! k = None).
Proof.
  rewrite serve_login. cbv zeta. intros [= <-].
  rewrite finish_response, finish_storage, finish_sessions, finish_set_cookie.
  destruct (login_cases (enter (sessions w) (cookie rq) (uid_enter o)) (req_body rq)
              (collaborator o) (uid_regenerate o) (enter_session _ _ _))
    as [(r & -> & Hr) | (d & Hd & ->)]; simpl.
  - intros _.
    destruct (leave_enter (sessions w) (cookie rq) (uid_enter o)) as (st' & -> & Hid & Heq).
    simpl. repeat split; try assumption.
    + unfold login_refusals in Hr. rewrite !elem_of_cons, elem_of_nil in Hr.
      destruct Hr as [-> | [-> | [-> | []]]]; eexists _, _; reflexivity.
    + intros k Hk. unfold login_refusals in Hr. rewrite !elem_of_cons, elem_of_nil in Hr.
      destruct Hr as [-> | [-> | [-> | []]]]; unfold fields; simpl;
        apply lookup_singleton_ne; congruence.
  - intros H. exfalso. apply H. reflexivity.
Qed.

Lemma login_failure_leaves_no_session_witness :
  exists out,
    serve PostLogin Sample.world0 Sample.login_request Sample.rejecting = Some out /\
    status (response out) <> 200 /\
    storage (world out) = storage Sample.world0 /\
    (forall sid, identity_at (sessions (world out)) sid
                 = identity_at (sessions Sample.world0) sid) /\
    (cookie Sample.login_request <> Some (uid_enter Sample.rejecting) ->
       sessions (world out) = sessions Sample.world0) /\
    set_cookie out = None /\
    response out ∈ login_refusals /\
    (exists code msg, response out = error code msg) /\
    (forall k, k <> "error" -> fields (response out) !! k = None).
Proof.
  eexists. split; [vm_compute; reflexivity|]. split; [vm_compute; discriminate|].
  apply (login_failure_leaves_no_session Sample.world0 Sample.login_request Sample.rejecting);
    vm_compute; [reflexivity|discriminate].
Defined.

(** A request whose cookie names no authenticated session gets 401 from
    [/api/user]. *)
Lemma get_user_unauthenticated w rq o :
  cookie rq ≫= identity_at (sessions w) = None ->
  exists out, serve GetUser w rq o = Some out /\
              response out = error 401 "Not authenticated".
Proof.
  intros Hc. unfold serve. simpl. unfold get_user, current_user.
  destruct (enter_session (sessions w) (cookie rq) (uid_enter o)) as [s Hs].
  rewrite Hs. pose proof (enter_user _ _ _ _ Hs) as Hu. rewrite Hc in Hu. rewrite Hu.
  eexists. split; [reflexivity|]. apply finish_response.
Qed.

(** Without an authenticated session, every guarded route answers 401,
    whether its handler is embedded here or not. *)
Lemma guarded_route_unauthenticated r w rq o :
  guard_of r <> Unguarded ->
  cookie rq ≫= identity_at (sessions w) = None ->
  exists out, serve r w rq o = Some out /\
              response out = error 401 "Authentication required".
Proof.
  intros Hg Hc. unfold serve.
  destruct (enter_session (sessions w) (cookie rq) (uid_enter o)) as [s Hs].
  pose proof (enter_user _ _ _ _ Hs) as Hu. rewrite Hc in Hu.
  assert (run_guard (guard_of r) (enter (sessions w) (cookie rq) (uid_enter o))
          = Reply (error 401 "Authentication required")) as ->.
  { unfold run_guard. destruct (guard_of r); [contradiction| |]; rewrite Hs.
    - apply requireAuth_401, Hu.
    - apply requireRole_401, Hu. }
  eexists. split; [reflexivity|]. apply finish_response.
Qed.

(** What the middleware writes back after an accepted login whose
    regenerated id is new to the request. *)
Lemma leave_established c d uid :
  sessionID c = originalId c ->
  uid <> sessionID c ->
  cookieId c <> Some uid ->
  leave (established c d uid).1 =
    (<[uid := mkData (Some (identity_of d))]> (delete (sessionID c) (store c)), Some uid).
Proof.
  intros Ho Hne Hck. unfold established. session_cases.
Qed.

Lemma enter_original st ck uid :
  sessionID (enter st ck uid) = originalId (enter st ck uid).
Proof.
  unfold enter, generate. destruct ck as [c|]; [destruct (st !! c)|]; reflexivity.
Qed.




(** ** Logout *)

(** One logout: 200, no cookie, and the session of the request is
    deleted from the store. *)
Lemma logout_once w rq o :
  serve PostLogout w rq o =
    Some (mkOutcome
            (mkWorld (storage w)
               (delete (sessionID (enter (sessions w) (cookie rq) (uid_enter o))) (sessions w)))
            (mkResponse 200 (Text "OK")) None).
Proof.
  unfold serve. simpl. unfold post_logout, logout.
  destruct (enter_session (sessions w) (cookie rq) (uid_enter o)) as [s Hs].
  rewrite Hs. simpl. rewrite finish_eq. simpl. rewrite enter_store. reflexivity.
Qed.

Lemma logout_forgets w rq o sid :
  cookie rq = Some sid ->
  delete (sessionID (enter (sessions w) (cookie rq) (uid_enter o))) (sessions w) !! sid = None.
Proof.
  intros Hc. apply lookup_delete_None. rewrite enter_sessionID, Hc.
  destruct (sessions w !! sid); [left|right]; reflexivity.
Qed.

Lemma logout_forgets_presented w rq o sid :
  presented w rq o sid ->
  delete (sessionID (enter (sessions w) (cookie rq) (uid_enter o))) (sessions w) !! sid = None.
Proof.
  intros [Hc | ->]; [apply logout_forgets, Hc|apply lookup_delete_eq].
Qed.

(** C8.  Logout answers 200 whatever the request and the store, also
    when repeated, and after each call no session is stored under an
    identifier the request held. *)
Theorem logout_twice w rq o1 o2 :
  exists out1 out2,
    serve PostLogout w rq o1 = Some out1 /\
    serve PostLogout (world out1) rq o2 = Some out2 /\
    response out1 = mkResponse 200 (Text "OK") /\
    response out2 = mkResponse 200 (Text "OK") /\
    (forall sid, presented w rq o1 sid -> sessions (world out1) !! sid = None) /\
    (forall sid, presented w rq o1 sid \/ presented (world out1) rq o2 sid ->
       sessions (world out2) !! sid = None) /\
    storage (world out2) = storage w /\
    set_cookie out1 = None /\ set_cookie out2 = None.
Proof.
  eexists _, _. split; [apply logout_once|]. split; [apply logout_once|].
  simpl. repeat split.
  - intros sid Hp. apply logout_forgets_presented, Hp.
  - intros sid [Hp | Hp].
    + apply lookup_delete_None. right. apply logout_forgets_presented, Hp.
    + apply (logout_forgets_presented _ rq o2 sid Hp).
Qed.

(** ** User storage *)

Lemma updateUserRole_missing st id role :
  users st !! id = None -> updateUserRole st id role = Throw "User not found".
Proof. intros H. unfold updateUserRole. rewrite H. reflexivity. Qed.

(** C9.  [updateUserRole] on an existing user sets that user's [role]
    and nothing else: its other properties, the other users, the
    sensors and the measurements are unchanged. *)
Theorem updateUserRole_frame st id role user :
  users st !! id = Some user ->
  exists st' updated,
    updateUserRole st id role = Ok (st', updated) /\
    users st' !! id = Some updated /\
    updated !! "role" = Some (VStr (role_name role)) /\
    (forall k, k <> "role" -> updated !! k = user !! k) /\
    (forall id', id' <> id -> users st' !! id' = users st !! id') /\
    sensors st' = sensors st /\
    measurements st' = measurements st.
Proof.
  intros Hu. unfold updateUserRole. rewrite Hu.
  eexists _, _. split; [reflexivity|]. simpl. repeat split.
  - apply lookup_insert_eq.
  - apply lookup_insert_eq.
  - intros k Hk. apply lookup_insert_ne. congruence.
  - intros id' Hid. apply lookup_insert_ne. congruence.
Qed.

Lemma updateUserRole_frame_witness :
  users Sample.store0 !! "u-2" = Some Sample.cliente /\
  exists st' updated,
    updateUserRole Sample.store0 "u-2" Technician = Ok (st', updated) /\
    users st' !! "u-2" = Some updated /\
    updated !! "role" = Some (VStr (role_name Technician)) /\
    (forall k, k <> "role" -> updated !! k = Sample.cliente !! k) /\
    (forall id', id' <> "u-2" -> users st' !! id' = users Sample.store0 !! id') /\
    sensors st' = sensors Sample.store0 /\
    measurements st' = measurements Sample.store0.
Proof.
  split; [vm_compute; reflexivity|].
  apply (updateUserRole_frame Sample.store0 "u-2" Technician Sample.cliente).
  vm_compute; reflexivity.
Defined.

(** ** Role changes *)

Lemma role_name_inj r1 r2 : role_name r1 = role_name r2 -> r1 = r2.
Proof. destruct r1, r2; simpl; intros [=]; reflexivity. Qed.

Lemma included_role_Some v r : included_role v = Some r <-> v = VStr (role_name r).
Proof.
  unfold included_role. destruct v as [| |b|n|s|]; try (split; intros; discriminate || (destruct r; discriminate)).
  destruct (String.eqb_spec s "admin") as [->|Ha].
  { split; [intros [= <-]; reflexivity|]. destruct r; intros [=]; reflexivity. }
  destruct (String.eqb_spec s "technician") as [->|Ht].
  { split; [intros [= <-]; reflexivity|]. destruct r; intros [=]; reflexivity. }
  destruct (String.eqb_spec s "user") as [->|Hu].
  { split; [intros [= <-]; reflexivity|]. destruct r; intros [=]; reflexivity. }
  split; [discriminate|]. destruct r; intros [= ->]; contradiction.
Qed.

Lemma included_role_None v :
  included_role v = None <-> v ∉ [VStr "admin"; VStr "technician"; VStr "user"].
Proof.
  rewrite !not_elem_of_cons. split.
  - intros Hn. repeat split; try apply not_elem_of_nil; intros ->; discriminate.
  - intros (Ha & Ht & Hu & _). destruct (included_role v) as [r|] eqn:E; [|reflexivity].
    apply included_role_Some in E. destruct r; simpl in E; contradiction.
Qed.

Lemma sanitize_lookup u k v :
  sanitize u !! k = Some v <-> k <> "password" /\ u !! k = Some v /\ v <> VUndefined.
Proof.
  unfold sanitize. rewrite stringify_lookup, lookup_delete_Some.
  split; [intros [[H1 H2] H3]|intros (H1 & H2 & H3)]; auto.
Qed.

Lemma sanitize_password u : sanitize u !! "password" = None.
Proof.
  destruct (sanitize u !! "password") eqn:E; [|reflexivity].
  apply sanitize_lookup in E as [H _]. contradiction.
Qed.

(** C7.  Behind [requireRole("admin")], the role change answers 400 to
    a role outside the three names, 404 when the role is valid and no
    user has the id, and otherwise 200 with the updated user without its
    [password]. *)
Theorem patch_user_role_replies w rq o :
  run_guard (guard_of PatchAdminUserRole)
    (enter (sessions w) (cookie rq) (uid_enter o)) = Next ->
  guard_of PatchAdminUserRole = NeedRole Admin /\
  exists out,
    serve PatchAdminUserRole w rq o = Some out /\
    (get (req_body rq) "role" ∉ [VStr "admin"; VStr "technician"; VStr "user"] ->
       response out = message 400 "Invalid role" /\ storage (world out) = storage w) /\
    (forall role,
       get (req_body rq) "role" = VStr (role_name role) ->
       users (storage w) !! param_id rq = None ->
       response out = message 404 "User not found" /\ storage (world out) = storage w) /\
    (forall role user,
       get (req_body rq) "role" = VStr (role_name role) ->
       users (storage w) !! param_id rq = Some user ->
       status (response out) = 200 /\
       body (response out) = Json (sanitize (<["role" := VStr (role_name role)]> user)) /\
       fields (response out) !! "password" = None /\
       fields (response out) !! "role" = Some (VStr (role_name role)) /\
       (forall k, k <> "password" -> k <> "role" ->
          fields (response out) !! k = stringify_fields user !! k) /\
       users (storage (world out)) !! param_id rq
         = Some (<["role" := VStr (role_name role)]> user)).
Proof.
  intros Hg. split; [reflexivity|].
  unfold serve. rewrite Hg. simpl handler_of. cbv iota beta.
  unfold patch_admin_user_role.
  destruct (included_role (get (req_body rq) "role")) as [r|] eqn:Hr.
  - apply included_role_Some in Hr. unfold updateUserRole.
    destruct (users (storage w) !! param_id rq) as [user|] eqn:Hu.
    + eexists. split; [reflexivity|]. rewrite finish_eq. simpl.
      split; [intros Hn; exfalso; apply included_role_None in Hn;
              apply included_role_Some in Hr; congruence|].
      split; [intros; discriminate|].
      intros role user' Hrole [= <-].
      assert (role = r) as ->.
      { apply role_name_inj. rewrite Hr in Hrole. congruence. }
      unfold fields. simpl. repeat split.
      * apply sanitize_password.
      * apply sanitize_lookup. rewrite lookup_insert_eq. repeat split; discriminate.
      * intros k Hp Hk. unfold sanitize, stringify_fields.
        apply option_eq. intros v. rewrite !map_lookup_filter_Some.
        rewrite lookup_delete_ne, lookup_insert_ne by congruence. reflexivity.
      * apply lookup_insert_eq.
    + eexists. split; [reflexivity|]. rewrite finish_eq. simpl.
      split; [intros Hn; exfalso; apply included_role_None in Hn;
              apply included_role_Some in Hr; congruence|].
      split; [auto|]. intros; discriminate.
  - eexists. split; [reflexivity|]. rewrite finish_eq. simpl.
    split; [auto|].
    split; [intros role Hrole _|intros role user Hrole _];
      apply included_role_Some in Hrole; congruence.
Qed.

Lemma patch_user_role_replies_witness :
  run_guard (guard_of PatchAdminUserRole)
    (enter (sessions Sample.world0) (cookie Sample.role_request)
       (uid_enter Sample.accepting)) = Next /\
  (  guard_of PatchAdminUserRole = NeedRole Admin /\
  exists out,
    serve PatchAdminUserRole Sample.world0 Sample.role_request Sample.accepting = Some out /\
    (get (req_body Sample.role_request) "role" ∉ [VStr "admin"; VStr "technician"; VStr "user"] ->
       response out = message 400 "Invalid role" /\ storage (world out) = storage Sample.world0) /\
    (forall role,
       get (req_body Sample.role_request) "role" = VStr (role_name role) ->
       users (storage Sample.world0) !! param_id Sample.role_request = None ->
       response out = message 404 "User not found" /\ storage (world out) = storage Sample.world0) /\
    (forall role user,
       get (req_body Sample.role_request) "role" = VStr (role_name role) ->
       users (storage Sample.world0) !! param_id Sample.role_request = Some user ->
       status (response out) = 200 /\
       body (response out) = Json (sanitize (<["role" := VStr (role_name role)]> user)) /\
       fields (response out) !! "password" = None /\
       fields (response out) !! "role" = Some (VStr (role_name role)) /\
       (forall k, k <> "password" -> k <> "role" ->
          fields (response out) !! k = stringify_fields user !! k) /\
       users (storage (world out)) !! param_id Sample.role_request
         = Some (<["role" := VStr (role_name role)]> user))).
Proof.
  split; [vm_compute; reflexivity|].
  apply (patch_user_role_replies Sample.world0 Sample.role_request Sample.accepting).
  vm_compute; reflexivity.
Defined.

(** ** Public collections *)

Lemma insert_desc_perm x l : insert_desc x l ≡ₚ x :: l.
Proof.
  induction l as [|y l IH]; simpl; [reflexivity|].
  destruct (Z.ltb (m_timestamp x) (m_timestamp y)); [|reflexivity].
  rewrite IH. apply Permutation_swap.
Qed.

Lemma sort_desc_perm l : sort_desc l ≡ₚ l.
Proof.
  induction l as [|x l IH]; simpl; [reflexivity|].
  rewrite insert_desc_perm, IH. reflexivity.
Qed.

Lemma insert_desc_sorted x l :
  Sorted newer_or_same l -> Sorted newer_or_same (insert_desc x l).
Proof.
  induction 1 as [|y l Hs IH Hhd]; simpl.
  - repeat constructor.
  - destruct (Z.ltb_spec (m_timestamp x) (m_timestamp y)) as [Hlt|Hge].
    + constructor; [exact IH|].
      destruct Hhd as [|z l Hz]; simpl.
      * constructor. unfold newer_or_same. lia.
      * destruct (Z.ltb (m_timestamp x) (m_timestamp z)); constructor;
          unfold newer_or_same in *; lia.
    + constructor; [constructor; assumption|]. constructor. exact Hge.
Qed.

Lemma sort_desc_sorted l : Sorted newer_or_same (sort_desc l).
Proof.
  induction l as [|x l IH]; simpl; [constructor|]. apply insert_desc_sorted, IH.
Qed.

(** A route without a guard whose handler leaves the session alone. *)
Lemma serve_unguarded r h w rq o resp :
  guard_of r = Unguarded ->
  handler_of r = Some h ->
  (forall c, h (storage w) c rq o = (storage w, c, resp)) ->
  exists out,
    serve r w rq o = Some out /\
    response out = resp /\
    storage (world out) = storage w /\
    (forall sid, identity_at (sessions (world out)) sid = identity_at (sessions w) sid) /\
    set_cookie out = None.
Proof.
  intros Hg Hh Hr. unfold serve. rewrite Hg, Hh. simpl. rewrite Hr, finish_eq.
  destruct (leave_enter (sessions w) (cookie rq) (uid_enter o)) as (st' & -> & Hid & _).
  eexists. split; [reflexivity|]. simpl. auto.
Qed.

(** C10.  [GET /api/sensors] and [GET /api/measurements] have no guard:
    whatever the request and its session, they answer 200 with the
    stored sensors, and with the stored measurements newest first. *)
Theorem sensors_and_measurements_unguarded w rq o :
  guard_of GetSensors = Unguarded /\
  guard_of GetMeasurements = Unguarded /\
  (exists out,
     serve GetSensors w rq o = Some out /\
     response out = mkResponse 200 (JsonSensors (sensors (storage w)).*2) /\
     storage (world out) = storage w) /\
  (exists out l,
     serve GetMeasurements w rq o = Some out /\
     response out = mkResponse 200 (JsonMeasurements l) /\
     l ≡ₚ (measurements (storage w)).*2 /\
     Sorted newer_or_same l /\
     storage (world out) = storage w).
Proof.
  split; [reflexivity|]. split; [reflexivity|]. split.
  - destruct (serve_unguarded GetSensors get_sensors w rq o
                (mkResponse 200 (JsonSensors (getSensors (storage w)))))
      as (out & Hs & Hr & Hst & _); try reflexivity.
    exists out. auto.
  - destruct (serve_unguarded GetMeasurements get_measurements w rq o
                (mkResponse 200 (JsonMeasurements (getMeasurements (storage w)))))
      as (out & Hs & Hr & Hst & _); try reflexivity.
    exists out, (getMeasurements (storage w)). repeat split; try assumption.
    + apply sort_desc_perm.
    + apply sort_desc_sorted.
Qed.

(** * Further properties *)

(** ** [Map] operations *)

Section JsMapFacts.

Context {V : Type}.
Implicit Types (m : list (string * V)) (k : string) (v : V).

Lemma jsmap_get_set_eq m k v : JsMap.get (JsMap.set m k v) k = Some v.
Proof.
  induction m as [|[k' v'] m IH]; simpl.
  - rewrite String.eqb_refl. reflexivity.
  - destruct (String.eqb_spec k' k) as [->|Hne]; simpl.
    + rewrite String.eqb_refl. reflexivity.
    + destruct (String.eqb_spec k' k); [contradiction|exact IH].
Qed.

Lemma jsmap_get_set_ne m k k' v :
  k <> k' -> JsMap.get (JsMap.set m k v) k' = JsMap.get m k'.
Proof.
  intros Hne. induction m as [|[k0 v0] m IH]; simpl.
  - destruct (String.eqb_spec k k'); [contradiction|reflexivity].
  - destruct (String.eqb_spec k0 k) as [->|Hk]; simpl.
    + destruct (String.eqb_spec k k'); [contradiction|reflexivity].
    + destruct (String.eqb_spec k0 k'); [reflexivity|exact IH].
Qed.

Lemma jsmap_set_new m k v :
  JsMap.get m k = None -> JsMap.set m k v = (m ++ [(k, v)])%list.
Proof.
  induction m as [|[k' v'] m IH]; simpl; [reflexivity|].
  destruct (String.eqb_spec k' k); [discriminate|].
  intros H. rewrite (IH H). reflexivity.
Qed.

Lemma jsmap_set_keys m k v :
  is_Some (JsMap.get m k) -> (JsMap.set m k v).*1 = m.*1.
Proof.
  induction m as [|[k' v'] m IH]; simpl.
  - intros [? [=]].
  - destruct (String.eqb_spec k' k) as [->|Hne]; simpl; [reflexivity|].
    intros H. f_equal. exact (IH H).
Qed.

Lemma jsmap_set_same m k v : JsMap.get m k = Some v -> JsMap.set m k v = m.
Proof.
  induction m as [|[k' v'] m IH]; simpl; [discriminate|].
  destruct (String.eqb_spec k' k) as [->|Hne].
  - intros [= ->]. reflexivity.
  - intros H. rewrite (IH H). reflexivity.
Qed.

Lemma jsmap_get_delete_eq m k : JsMap.get (JsMap.delete m k).1 k = None.
Proof.
  unfold JsMap.delete. simpl. induction m as [|[k' v'] m IH]; simpl; [reflexivity|].
  destruct (String.eqb_spec k' k) as [->|Hne]; simpl; [exact IH|].
  destruct (String.eqb_spec k' k); [contradiction|exact IH].
Qed.

Lemma jsmap_get_delete_ne m k k' :
  k <> k' -> JsMap.get (JsMap.delete m k).1 k' = JsMap.get m k'.
Proof.
  intros Hne. unfold JsMap.delete. simpl.
  induction m as [|[k0 v0] m IH]; simpl; [reflexivity|].
  destruct (String.eqb_spec k0 k) as [->|Hk]; simpl.
  - destruct (String.eqb_spec k k'); [contradiction|exact IH].
  - destruct (String.eqb_spec k0 k'); [reflexivity|exact IH].
Qed.

Lemma jsmap_delete_absent m k :
  JsMap.get m k = None -> JsMap.delete m k = (m, false).
Proof.
  intros H. unfold JsMap.delete, JsMap.has. rewrite H. f_equal.
  induction m as [|[k' v'] m IH]; simpl in *; [reflexivity|].
  destruct (String.eqb_spec k' k); [discriminate|]. simpl. rewrite (IH H). reflexivity.
Qed.

Lemma jsmap_delete_sublist m k : sublist (JsMap.delete m k).1 m.
Proof.
  unfold JsMap.delete. simpl. induction m as [|[k' v'] m IH]; simpl; [constructor|].
  destruct (negb (String.eqb k' k)); [apply sublist_skip|apply sublist_cons]; exact IH.
Qed.

Lemma jsmap_get_elem m k v : JsMap.get m k = Some v -> (k, v) ∈ m.
Proof.
  induction m as [|[k' v'] m IH]; simpl; [discriminate|].
  destruct (String.eqb_spec k' k) as [->|Hne].
  - intros [= ->]. left.
  - intros H. right. exact (IH H).
Qed.


End JsMapFacts.

(** ** Sensors *)

(** A created sensor is stored under its id with [isActive] and
    [lastSeen] filled in, the sensors under other ids are as before, and
    a sensor under a new id is enumerated last. *)
Theorem createSensor_getSensor st ins id now :
  let '(st', sensor) := createSensor st ins id now in
  getSensor st' id = Some sensor /\
  sensor_id sensor = id /\
  sensor_isActive sensor = Some (default false (ins_isActive ins)) /\
  sensor_lastSeen sensor = Some now /\
  (forall id', id' <> id -> getSensor st' id' = getSensor st id') /\
  (getSensor st id = None -> getSensors st' = (getSensors st ++ [sensor])%list) /\
  users st' = users st /\ measurements st' = measurements st.
Proof.
  unfold createSensor, getSensor, getSensors. simpl. repeat split.
  - apply jsmap_get_set_eq.
  - intros id' Hne. apply jsmap_get_set_ne. congruence.
  - intros Hnew. rewrite (jsmap_set_new _ _ _ Hnew), fmap_app. reflexivity.
Qed.

(** [updateSensor] throws ["Sensor not found"] for an id that is not
    stored; otherwise it stores the merged sensor under the same key,
    whatever [updates.id] says, and keeps the keys, their order and every
    other sensor. *)
Theorem updateSensor_spec st id updates :
  match getSensor st id with
  | None => updateSensor st id updates = Throw "Sensor not found"
  | Some sensor =>
      exists st',
        updateSensor st id updates = Ok (st', merge_sensor sensor updates) /\
        getSensor st' id = Some (merge_sensor sensor updates) /\
        sensor_id (merge_sensor sensor updates)
          = default (sensor_id sensor) (upd_id updates) /\
        (forall id', id' <> id -> getSensor st' id' = getSensor st id') /\
        (sensors st').*1 = (sensors st).*1 /\
        users st' = users st /\ measurements st' = measurements st
  end.
Proof.
  unfold getSensor, updateSensor. destruct (JsMap.get (sensors st) id) as [sensor|] eqn:Hs.
  - eexists. split; [reflexivity|]. simpl. repeat split.
    + apply jsmap_get_set_eq.
    + intros id' Hne. apply jsmap_get_set_ne. congruence.
    + apply jsmap_set_keys. rewrite Hs. eauto.
  - reflexivity.
Qed.

(** The update without any property changes nothing. *)
Lemma updateSensor_nothing st id sensor :
  getSensor st id = Some sensor ->
  updateSensor st id (mkSensorUpdates None None None None None None None) = Ok (st, sensor).
Proof.
  unfold getSensor, updateSensor. intros Hs. rewrite Hs.
  assert (merge_sensor sensor (mkSensorUpdates None None None None None None None) = sensor)
    as -> by (destruct sensor; reflexivity).
  rewrite (jsmap_set_same _ _ _ Hs). destruct st; reflexivity.
Qed.

(** [deleteSensor] reports whether the id was stored, removes it, and
    keeps the other sensors in their order. *)
Theorem deleteSensor_spec st id :
  let '(st', was) := deleteSensor st id in
  (was = true <-> is_Some (getSensor st id)) /\
  getSensor st' id = None /\
  (forall id', id' <> id -> getSensor st' id' = getSensor st id') /\
  sublist (getSensors st') (getSensors st) /\
  (getSensor st id = None -> st' = st) /\
  users st' = users st /\ measurements st' = measurements st.
Proof.
  unfold deleteSensor, getSensor, getSensors.
  pose proof (jsmap_get_delete_eq (sensors st) id) as Hgone.
  pose proof (jsmap_get_delete_ne (sensors st) id) as Hother.
  pose proof (jsmap_delete_sublist (sensors st) id) as Hsub.
  pose proof (jsmap_delete_absent (sensors st) id) as Habsent.
  assert ((JsMap.delete (sensors st) id).2 = JsMap.has (sensors st) id) as Hwas
    by reflexivity.
  destruct (JsMap.delete (sensors st) id) as [ss was]. simpl in *. subst was.
  repeat split.
  - unfold JsMap.has. destruct (JsMap.get (sensors st) id); [eauto|discriminate].
  - unfold JsMap.has. intros [s ->]. reflexivity.
  - exact Hgone.
  - intros id' Hne. apply Hother. congruence.
  - apply fmap_sublist, Hsub.
  - intros Hn. injection (Habsent Hn) as -> _. destruct st; reflexivity.
Qed.

(** ** Measurements *)

Lemma newer_or_same_trans : Transitive newer_or_same.
Proof. intros a b c. unfold newer_or_same. lia. Qed.

Lemma sort_desc_strongly_sorted l : StronglySorted newer_or_same (sort_desc l).
Proof. apply Sorted_StronglySorted; [apply newer_or_same_trans|apply sort_desc_sorted]. Qed.

(** Sorting a list that is newest first leaves it as it is: rows with
    the same timestamp keep their order. *)
Lemma sort_desc_sorted_id l : Sorted newer_or_same l -> sort_desc l = l.
Proof.
  induction 1 as [|x l Hs IH Hhd]; simpl; [reflexivity|].
  rewrite IH. destruct Hhd as [|y l Hy]; simpl; [reflexivity|].
  unfold newer_or_same in Hy.
  destruct (Z.ltb_spec (m_timestamp x) (m_timestamp y)); [lia|reflexivity].
Qed.

(** [getMeasurements()] returns the rows in their stored order when
    that order is already newest first: rows with the same timestamp are
    not reordered. *)
Theorem getMeasurements_stable st :
  Sorted newer_or_same (measurements st).*2 ->
  getMeasurements st = (measurements st).*2.
Proof.
  intros Hsorted. unfold getMeasurements. apply sort_desc_sorted_id, Hsorted.
Qed.

Lemma getMeasurements_stable_witness :
  Sorted newer_or_same (measurements Fixtures.store1).*2 /\
  (getMeasurements Fixtures.store1 = (measurements Fixtures.store1).*2).
Proof.
  split; [repeat constructor; vm_compute; discriminate|].
  apply (getMeasurements_stable Fixtures.store1);
    [repeat constructor; vm_compute; discriminate].
Defined.

Lemma elem_of_sort_desc l m : m ∈ sort_desc l <-> m ∈ l.
Proof. rewrite (sort_desc_perm l). reflexivity. Qed.

Lemma recent_prefix st limit :
  exists rest,
    getMeasurements st = (getRecentMeasurements st limit ++ rest)%list /\
    length (getRecentMeasurements st limit)
      = Nat.min limit (length (measurements st)) /\
    (forall a b, a ∈ getRecentMeasurements st limit -> b ∈ rest ->
                 m_timestamp b <= m_timestamp a) /\
    Sorted newer_or_same (getRecentMeasurements st limit).
Proof.
  unfold getRecentMeasurements. exists (drop limit (getMeasurements st)).
  pose proof (sort_desc_strongly_sorted (measurements st).*2) as Hss.
  fold (getMeasurements st) in Hss.
  rewrite <- (take_drop limit (getMeasurements st)) in Hss.
  apply StronglySorted_app in Hss as (Hall & Hl & _).
  split; [symmetry; apply take_drop|]. split.
  { rewrite length_take. unfold getMeasurements.
    rewrite (Permutation_length (sort_desc_perm _)), length_fmap. reflexivity. }
  split.
  - intros a b Ha Hb. exact (Hall a b Ha Hb).
  - apply StronglySorted_Sorted, Hl.
Qed.

(** [getRecentMeasurements(limit)] is the first [limit] rows of
    [getMeasurements()]: it has [min limit n] rows, and none of the rows
    it leaves out is newer than one it returns. *)
Theorem getRecentMeasurements_newest st limit :
  exists rest,
    getMeasurements st = (getRecentMeasurements st limit ++ rest)%list /\
    length (getRecentMeasurements st limit)
      = Nat.min limit (length (measurements st)) /\
    (forall a b, a ∈ getRecentMeasurements st limit -> b ∈ rest ->
                 m_timestamp b <= m_timestamp a) /\
    Sorted newer_or_same (getRecentMeasurements st limit).
Proof. exact (recent_prefix st limit). Qed.

Lemma insert_desc_front x l :
  Forall (fun y => m_timestamp y <= m_timestamp x) l -> insert_desc x l = x :: l.
Proof.
  destruct 1 as [|y l Hy _]; simpl; [reflexivity|].
  destruct (Z.ltb_spec (m_timestamp x) (m_timestamp y)); [lia|reflexivity].
Qed.

Lemma Forall_list_filter {A} (P : A -> Prop) (f : A -> bool) l :
  Forall P l -> Forall P (List.filter f l).
Proof.
  induction 1 as [|x l Hx _ IH]; simpl; [constructor|].
  destruct (f x); [constructor; assumption|assumption].
Qed.

(** Filtering commutes with the insertion into a list that is newest
    first. *)
Lemma filter_insert_desc (f : Measurement -> bool) x l :
  StronglySorted newer_or_same l ->
  List.filter f (insert_desc x l) =
    if f x then insert_desc x (List.filter f l) else List.filter f l.
Proof.
  induction 1 as [|y l Hs IH Hall]; simpl.
  - destruct (f x); reflexivity.
  - destruct (Z.ltb_spec (m_timestamp x) (m_timestamp y)) as [Hlt|Hge]; simpl.
    + rewrite IH. destruct (f y), (f x); simpl; try reflexivity.
      destruct (Z.ltb_spec (m_timestamp x) (m_timestamp y)); [reflexivity|lia].
    + destruct (f x); [|reflexivity].
      symmetry. apply insert_desc_front.
      change (Forall (fun z => m_timestamp z <= m_timestamp x) (List.filter f (y :: l))).
      apply Forall_list_filter. constructor; [exact Hge|].
      eapply Forall_impl; [exact Hall|]. unfold newer_or_same. simpl. intros z Hz. lia.
Qed.

Lemma filter_sort_desc (f : Measurement -> bool) l :
  List.filter f (sort_desc l) = sort_desc (List.filter f l).
Proof.
  induction l as [|x l IH]; simpl; [reflexivity|].
  rewrite (filter_insert_desc f x _ (sort_desc_strongly_sorted l)), IH.
  destruct (f x); reflexivity.
Qed.

(** [getMeasurementsBySensor(sensorId)] returns exactly the stored rows
    of that sensor, newest first, in the order in which
    [getMeasurements()] lists them. *)
Theorem getMeasurementsBySensor_spec st sensorId :
  (forall m, m ∈ getMeasurementsBySensor st sensorId <->
             m ∈ (measurements st).*2 /\ m_sensorId m = sensorId) /\
  Sorted newer_or_same (getMeasurementsBySensor st sensorId) /\
  getMeasurementsBySensor st sensorId =
    List.filter (fun m => String.eqb (m_sensorId m) sensorId) (getMeasurements st).
Proof.
  unfold getMeasurementsBySensor, getMeasurements. split; [|split].
  - intros m. rewrite elem_of_sort_desc, list_elem_of_In, filter_In, <- list_elem_of_In.
    rewrite String.eqb_eq. reflexivity.
  - apply sort_desc_sorted.
  - symmetry. apply filter_sort_desc.
Qed.

Lemma sort_desc_cons x l : sort_desc (x :: l) = insert_desc x (sort_desc l).
Proof. reflexivity. Qed.

(** A row appended after rows that are all older sorts to the front. *)
Lemma sort_desc_snoc_newest l m :
  Forall (fun x => m_timestamp x < m_timestamp m) l ->
  sort_desc (l ++ [m]) = m :: sort_desc l.
Proof.
  induction 1 as [|x l Hx _ IH]; [reflexivity|].
  rewrite <- app_comm_cons, !sort_desc_cons, IH. simpl.
  destruct (Z.ltb_spec (m_timestamp x) (m_timestamp m)); [reflexivity|lia].
Qed.

(** A created measurement is stored under its id, always with a status
    (["good"] when none is given); the rows under other ids are as
    before, and under a new id [getMeasurements()] gains exactly that
    row. *)
Theorem createMeasurement_getMeasurement st ins id now :
  let '(st', m) := createMeasurement st ins id now in
  getMeasurement st' id = Some m /\
  m_id m = id /\
  m_status m = Some (default "good" (inm_status ins)) /\
  m_timestamp m = now /\
  (forall id', id' <> id -> getMeasurement st' id' = getMeasurement st id') /\
  (getMeasurement st id = None -> getMeasurements st' ≡ₚ m :: getMeasurements st) /\
  users st' = users st /\ sensors st' = sensors st.
Proof.
  unfold createMeasurement, getMeasurement, getMeasurements. simpl.
  split; [apply jsmap_get_set_eq|]. do 3 (split; [reflexivity|]).
  split; [intros id' Hne; apply jsmap_get_set_ne; congruence|].
  split; [|split; reflexivity].
  intros Hnew. rewrite (jsmap_set_new _ _ _ Hnew), fmap_app. simpl.
  rewrite !sort_desc_perm. symmetry. apply Permutation_cons_append.
Qed.

(** A measurement created under a new id at a date later than that of
    every stored row is the first row of [getMeasurements()] and of
    [getRecentMeasurements(limit)] for every positive limit. *)
Theorem createMeasurement_first st ins id now limit :
  getMeasurement st id = None ->
  Forall (fun x => m_timestamp x < now) (measurements st).*2 ->
  (0 < limit)%nat ->
  let '(st', m) := createMeasurement st ins id now in
  getMeasurements st' = m :: getMeasurements st /\
  head (getRecentMeasurements st' limit) = Some m.
Proof.
  unfold createMeasurement, getMeasurement, getRecentMeasurements, getMeasurements. simpl.
  intros Hnew Hold Hlimit.
  rewrite (jsmap_set_new _ _ _ Hnew), fmap_app. simpl.
  set (m := mkMeasurement _ _ _ _ _ _ _ _ _ _ _).
  rewrite (sort_desc_snoc_newest _ m Hold).
  split; [reflexivity|]. destruct limit; [lia|reflexivity].
Qed.

Lemma createMeasurement_first_witness :
  getMeasurement Fixtures.store1 "m-3" = None /\
  Forall (fun x => m_timestamp x < 150) (measurements Fixtures.store1).*2 /\
  (0 < 3%nat)%nat /\
  (let '(st', m) := createMeasurement Fixtures.store1 Fixtures.new_row "m-3" 150 in
  getMeasurements st' = m :: getMeasurements Fixtures.store1 /\
  head (getRecentMeasurements st' 3%nat) = Some m).
Proof.
  split; [vm_compute; reflexivity|].
  split; [repeat constructor|].
  split; [vm_compute; lia|].
  apply (createMeasurement_first Fixtures.store1 Fixtures.new_row "m-3" 150 3%nat);
    [vm_compute; reflexivity | repeat constructor | vm_compute; lia].
Defined.

(** ** Users *)

Lemma getAllUsers_elem st u : u ∈ getAllUsers st <-> exists id, users st !! id = Some u.
Proof.
  unfold getAllUsers. rewrite list_elem_of_fmap. split.
  - intros [[id u'] [-> Hin]]. exists id. apply elem_of_map_to_list in Hin. exact Hin.
  - intros [id Hid]. exists (id, u). split; [reflexivity|].
    apply elem_of_map_to_list. exact Hid.
Qed.

Lemma getUserByUsername_cases st username :
  match getUserByUsername st username with
  | Some u => get u "username" = VStr username /\ exists id, users st !! id = Some u
  | None => forall id u, users st !! id = Some u -> get u "username" <> VStr username
  end.
Proof.
  unfold getUserByUsername.
  destruct (List.find _ (getAllUsers st)) as [u|] eqn:E.
  - apply find_some in E as [Hin Hu]. apply bool_decide_eq_true in Hu.
    split; [exact Hu|]. apply getAllUsers_elem, list_elem_of_In, Hin.
  - intros id u Hid Hu.
    pose proof (find_none _ _ E u) as Hn. simpl in Hn.
    rewrite bool_decide_eq_true_2 in Hn by exact Hu.
    discriminate Hn. apply list_elem_of_In, getAllUsers_elem. eauto.
Qed.

(** [getUserByUsername] returns a stored user with that username, and
    [undefined] only when no stored user has it. *)
Theorem getUserByUsername_spec st username :
  match getUserByUsername st username with
  | Some u => get u "username" = VStr username /\ exists id, users st !! id = Some u
  | None => forall id u, users st !! id = Some u -> get u "username" <> VStr username
  end.
Proof. exact (getUserByUsername_cases st username). Qed.

(** [createUser] stores the row with its new [id] property under that
    id and keeps every user stored under another id; it does not look at
    the username.  Afterwards [getUserByUsername] finds a stored user
    with the new user's username: the new user when no stored user had
    that username before, and otherwise one of the users that have it. *)
Theorem createUser_stored st insertUser id :
  let '(st', user) := createUser st insertUser id in
  getUser st' id = Some user /\
  user !! "id" = Some (VStr id) /\
  (forall k, k <> "id" -> user !! k = insertUser !! k) /\
  (forall id', id' <> id -> getUser st' id' = getUser st id') /\
  (forall username, get insertUser "username" = VStr username ->
     exists found,
       getUserByUsername st' username = Some found /\
       get found "username" = VStr username /\
       (exists id', getUser st' id' = Some found) /\
       ((forall id' u, getUser st id' = Some u -> get u "username" <> VStr username) ->
        found = user)) /\
  sensors st' = sensors st /\ measurements st' = measurements st.
Proof.
  unfold createUser, getUser. simpl. repeat split.
  - apply lookup_insert_eq.
  - apply lookup_insert_eq.
  - intros k Hk. apply lookup_insert_ne. congruence.
  - intros id' Hne. apply lookup_insert_ne. congruence.
  - intros username Hu.
    pose proof (getUserByUsername_cases
                  (with_users st (<[id := <["id" := VStr id]> insertUser]> (users st)))
                  username) as Hs.
    destruct (getUserByUsername _ username) as [found|].
    + destruct Hs as [Hn [id' Hid]]. simpl in Hid.
      exists found. split; [reflexivity|]. split; [exact Hn|].
      split; [exists id'; exact Hid|].
      intros Hfree. destruct (decide (id' = id)) as [->|Hne].
      * rewrite lookup_insert_eq in Hid. congruence.
      * rewrite lookup_insert_ne in Hid by congruence.
        exfalso. exact (Hfree id' found Hid Hn).
    + exfalso. apply (Hs id (<["id" := VStr id]> insertUser)).
      * simpl. apply lookup_insert_eq.
      * unfold get in *. rewrite lookup_insert_ne by discriminate. exact Hu.
Qed.

(** Role updates compose: the last role wins, the same role twice is
    the same as once, and no update adds or removes a user. *)
Theorem updateUserRole_twice st id r1 r2 st1 u1 :
  updateUserRole st id r1 = Ok (st1, u1) ->
  updateUserRole st1 id r2 = updateUserRole st id r2 /\
  updateUserRole st1 id r1 = Ok (st1, u1) /\
  dom (users st1) = dom (users st).
Proof.
  unfold updateUserRole. destruct (users st !! id) as [user|] eqn:Hu; [|discriminate].
  intros [= <- <-]. simpl. rewrite lookup_insert_eq, !insert_insert_eq.
  repeat split. rewrite dom_insert_L. apply elem_of_dom_2 in Hu.
  apply subseteq_union_1_L, singleton_subseteq_l, Hu.
Qed.

Lemma updateUserRole_twice_witness :
  exists st1 u1,
  updateUserRole Sample.store0 "u-2" Technician = Ok (st1, u1) /\
  (updateUserRole st1 "u-2" Admin = updateUserRole Sample.store0 "u-2" Admin /\
  updateUserRole st1 "u-2" Technician = Ok (st1, u1) /\
  dom (users st1) = dom (users Sample.store0)).
Proof.
  eexists.
  eexists.
  split; [vm_compute; reflexivity|].
  apply (updateUserRole_twice Sample.store0 "u-2" Technician Admin _ _);
    [vm_compute; reflexivity].
Defined.

(** ** Guards in front of the routes *)

Lemma data_eta (s : data) : s = mkData (user s).
Proof. destruct s; reflexivity. Qed.

(** What a guard decides depends only on the identity the request's
    cookie gives access to. *)
Lemma run_guard_enter g st ck uid :
  run_guard g (enter st ck uid) =
    match g with
    | Unguarded => Next
    | NeedAuth => requireAuth (mkData (ck ≫= identity_at st))
    | NeedRole r => requireRole r (mkData (ck ≫= identity_at st))
    end.
Proof.
  destruct (enter_session st ck uid) as [s Hs].
  pose proof (enter_user _ _ _ _ Hs) as Hu.
  unfold run_guard. rewrite Hs, (data_eta s), Hu. destruct g; reflexivity.
Qed.

(** A request that its guard rejects gets the guard's reply and changes
    nothing. *)
Lemma serve_rejected r w rq o resp :
  run_guard (guard_of r) (enter (sessions w) (cookie rq) (uid_enter o)) = Reply resp ->
  exists out,
    serve r w rq o = Some out /\
    response out = resp /\
    storage (world out) = storage w /\
    (forall sid, identity_at (sessions (world out)) sid = identity_at (sessions w) sid) /\
    set_cookie out = None.
Proof.
  intros Hg. unfold serve. rewrite Hg, finish_eq.
  destruct (leave_enter (sessions w) (cookie rq) (uid_enter o)) as (st' & -> & Hid & _).
  eexists. split; [reflexivity|]. simpl. auto.
Qed.

(** Every route behind [requireAuth] or [requireRole] answers 401 to a
    request without an authenticated session, and changes nothing. *)
Theorem unauthenticated_rejected r w rq o :
  guard_of r <> Unguarded ->
  cookie rq ≫= identity_at (sessions w) = None ->
  exists out,
    serve r w rq o = Some out /\
    response out = error 401 "Authentication required" /\
    storage (world out) = storage w /\
    (forall sid, identity_at (sessions (world out)) sid = identity_at (sessions w) sid) /\
    set_cookie out = None.
Proof.
  intros Hg Hc. apply serve_rejected. rewrite run_guard_enter, Hc.
  destruct (guard_of r); [contradiction|reflexivity|reflexivity].
Qed.

Lemma unauthenticated_rejected_witness :
  guard_of PostSensorsConnect <> Unguarded /\
  cookie Fixtures.anonymous ≫= identity_at (sessions Fixtures.world1) = None /\
  (exists out,
    serve PostSensorsConnect Fixtures.world1 Fixtures.anonymous Sample.accepting = Some out /\
    response out = error 401 "Authentication required" /\
    storage (world out) = storage Fixtures.world1 /\
    (forall sid, identity_at (sessions (world out)) sid = identity_at (sessions Fixtures.world1) sid) /\
    set_cookie out = None).
Proof.
  split; [discriminate|].
  split; [reflexivity|].
  apply (unauthenticated_rejected PostSensorsConnect Fixtures.world1 Fixtures.anonymous Sample.accepting);
    [discriminate | reflexivity].
Defined.

(** The level of a role that is not a string is 0. *)
Lemma userLevel_not_string v : (forall s, v <> VStr s) -> userLevel v = ENum 0.
Proof. destruct v; try reflexivity. intros H. exfalso. apply (H s). reflexivity. Qed.

(** Every route behind [requireRole(m)] answers 403 to a session whose
    role is a string that [Object.prototype] does not define and that
    ranks below [m], or is [undefined], [null], a boolean or a number,
    and changes nothing.  Roles that are nested values are left out:
    the key of an array is the join of its elements. *)
Theorem insufficient_role_rejected r m w rq o u :
  guard_of r = NeedRole m ->
  cookie rq ≫= identity_at (sessions w) = Some u ->
  match su_role u with
  | VStr role => inherited role = false /\ rank role < rank (role_name m)
  | VObject => False
  | _ => True
  end ->
  exists out,
    serve r w rq o = Some out /\
    response out = error 403 "Insufficient permissions" /\
    storage (world out) = storage w /\
    (forall sid, identity_at (sessions (world out)) sid = identity_at (sessions w) sid) /\
    set_cookie out = None.
Proof.
  intros Hg Hc Hrole. apply serve_rejected. rewrite run_guard_enter, Hg, Hc.
  unfold requireRole. simpl. rewrite required_level_rank.
  assert (exists n, userLevel (su_role u) = ENum n /\ n < rank (role_name m)) as (n & -> & Hn).
  { destruct (su_role u) as [| |b|z|role|] eqn:E; [| | | | |contradiction];
      try (exists 0; split; [reflexivity|]; pose proof (rank_role_name_pos m); lia).
    destruct Hrole as [Hi Hr]. exists (rank role). split; [apply userLevel_rank, Hi|exact Hr]. }
  unfold JS.lt. simpl. destruct (Z.ltb_spec n (rank (role_name m))); [reflexivity|lia].
Qed.

Lemma insufficient_role_rejected_witness :
  guard_of GetAdminUsers = NeedRole Admin /\
  cookie Fixtures.as_cliente ≫= identity_at (sessions Fixtures.world1) = Some Fixtures.cliente_session /\
  match su_role Fixtures.cliente_session with
  | VStr role => inherited role = false /\ rank role < rank (role_name Admin)
  | VObject => False
  | _ => True
  end /\
  (exists out,
    serve GetAdminUsers Fixtures.world1 Fixtures.as_cliente Sample.accepting = Some out /\
    response out = error 403 "Insufficient permissions" /\
    storage (world out) = storage Fixtures.world1 /\
    (forall sid, identity_at (sessions (world out)) sid = identity_at (sessions Fixtures.world1) sid) /\
    set_cookie out = None).
Proof.
  split; [reflexivity|].
  split; [vm_compute; reflexivity|].
  split; [vm_compute; split; reflexivity|].
  apply (insufficient_role_rejected GetAdminUsers Admin Fixtures.world1 Fixtures.as_cliente Sample.accepting Fixtures.cliente_session);
    [reflexivity | vm_compute; reflexivity | vm_compute; split; reflexivity].
Defined.

(** The guards are nested: a session that passes [requireRole("admin")]
    passes [requireRole("technician")], one that passes that passes
    [requireRole("user")], and one that passes that passes
    [requireAuth]. *)
Theorem guards_nested (s : data) :
  (passes (requireRole Admin s) = true -> passes (requireRole Technician s) = true) /\
  (passes (requireRole Technician s) = true -> passes (requireRole User s) = true) /\
  (passes (requireRole User s) = true -> passes (requireAuth s) = true).
Proof.
  unfold requireRole, requireAuth. destruct (user s) as [u|]; simpl; [|auto].
  rewrite !required_level_rank. unfold JS.lt.
  destruct (to_number (userLevel (su_role u))) as [n|]; simpl; [|auto].
  change (rank "admin") with 3. change (rank "technician") with 2.
  change (rank "user") with 1.
  destruct (Z.ltb_spec n 3), (Z.ltb_spec n 2), (Z.ltb_spec n 1); simpl;
    repeat split; intros; try reflexivity; try discriminate; lia.
Qed.

(** ** The session routes *)

(** The object [/api/user] sends for an identity. *)
Lemma current_user_fields u k v :
  stringify_fields (<["id" := su_id u]> (<["username" := su_username u]>
                   (<["role" := su_role u]> ∅))) !! k = Some v <->
  (k = "id" /\ v = su_id u \/ k = "username" /\ v = su_username u \/
   k = "role" /\ v = su_role u) /\ v <> VUndefined.
Proof.
  rewrite stringify_lookup.
  destruct (decide (k = "id")) as [->|Hid].
  { rewrite lookup_insert_eq. split.
    - intros [[= <-] Hv]. auto.
    - intros [[[_ ->] | [[? _] | [? _]]] Hv]; try discriminate. auto. }
  rewrite lookup_insert_ne by congruence.
  destruct (decide (k = "username")) as [->|Hun].
  { rewrite lookup_insert_eq. split.
    - intros [[= <-] Hv]. auto.
    - intros [[[? _] | [[_ ->] | [? _]]] Hv]; try discriminate. auto. }
  rewrite lookup_insert_ne by congruence.
  destruct (decide (k = "role")) as [->|Hr].
  { rewrite lookup_insert_eq. split.
    - intros [[= <-] Hv]. auto.
    - intros [[[? _] | [[? _] | [_ ->]]] Hv]; try discriminate. auto. }
  rewrite lookup_insert_ne, lookup_empty by congruence. split.
  - intros [? _]. discriminate.
  - intros [[[? _] | [[? _] | [? _]]] _]; contradiction.
Qed.

Lemma current_user_served w rq o :
  exists out,
    serve GetUser w rq o = Some out /\
    match cookie rq ≫= identity_at (sessions w) with
    | None => response out = error 401 "Not authenticated"
    | Some u =>
        status (response out) = 200 /\
        (forall k v, fields (response out) !! k = Some v <->
           (k = "id" /\ v = su_id u \/ k = "username" /\ v = su_username u \/
            k = "role" /\ v = su_role u) /\ v <> VUndefined) /\
        fields (response out) !! "access_token" = None /\
        fields (response out) !! "token_type" = None
    end /\
    storage (world out) = storage w /\
    (forall sid, identity_at (sessions (world out)) sid = identity_at (sessions w) sid) /\
    set_cookie out = None.
Proof.
  unfold serve. simpl. unfold get_user, current_user.
  destruct (enter_session (sessions w) (cookie rq) (uid_enter o)) as [s Hs].
  pose proof (enter_user _ _ _ _ Hs) as Hu. rewrite Hs.
  destruct (leave_enter (sessions w) (cookie rq) (uid_enter o)) as (st' & Hl & Hid & _).
  destruct (user s) as [u|] eqn:E; rewrite <- Hu; rewrite finish_eq, Hl;
    (eexists; split; [reflexivity|]); simpl; (split; [|auto]).
  - split; [reflexivity|]. unfold fields. simpl.
    split; [apply current_user_fields|].
    split.
    + destruct (stringify_fields _ !! "access_token") eqn:F; [|reflexivity].
      apply current_user_fields in F as [[[? _] | [[? _] | [? _]]] _]; discriminate.
    + destruct (stringify_fields _ !! "token_type") eqn:F; [|reflexivity].
      apply current_user_fields in F as [[[? _] | [[? _] | [? _]]] _]; discriminate.
  - reflexivity.
Qed.

(** [GET /api/user] answers 401 without an authenticated session, and
    otherwise 200 with the [id], [username] and [role] of the session's
    identity and nothing else: the tokens the session holds are not
    sent.  It changes nothing. *)
Theorem get_user_reply w rq o :
  exists out,
    serve GetUser w rq o = Some out /\
    match cookie rq ≫= identity_at (sessions w) with
    | None => response out = error 401 "Not authenticated"
    | Some u =>
        status (response out) = 200 /\
        (forall k v, fields (response out) !! k = Some v <->
           (k = "id" /\ v = su_id u \/ k = "username" /\ v = su_username u \/
            k = "role" /\ v = su_role u) /\ v <> VUndefined) /\
        fields (response out) !! "access_token" = None /\
        fields (response out) !! "token_type" = None
    end /\
    storage (world out) = storage w /\
    (forall sid, identity_at (sessions (world out)) sid = identity_at (sessions w) sid) /\
    set_cookie out = None.
Proof. exact (current_user_served w rq o). Qed.

(** The outcome of a login that the collaborator accepts, when the id
    drawn by [regenerate] is neither the request's session id nor its
    cookie's. *)
Lemma login_success_outcome w rq o out :
  serve PostLogin w rq o = Some out ->
  status (response out) = 200 ->
  uid_regenerate o <> sessionID (enter (sessions w) (cookie rq) (uid_enter o)) ->
  cookie rq <> Some (uid_regenerate o) ->
  exists d,
    accepted (collaborator o) = Some d /\
    out = mkOutcome
            (mkWorld (storage w)
               (<[uid_regenerate o := mkData (Some (identity_of d))]>
                  (delete (sessionID (enter (sessions w) (cookie rq) (uid_enter o)))
                     (sessions w))))
            (mkResponse 200 (Json (stringify_fields (login_body d))))
            (Some (uid_regenerate o)).
Proof.
  rewrite serve_login. cbv zeta. intros [= <-]. rewrite finish_eq. simpl.
  set (c := enter (sessions w) (cookie rq) (uid_enter o)).
  destruct (login_cases c (req_body rq) (collaborator o) (uid_regenerate o)
              (enter_session _ _ _)) as [(r & -> & Hr) | (d & Hd & ->)].
  { simpl. intros Hst. exfalso. unfold login_refusals in Hr.
    rewrite !elem_of_cons, elem_of_nil in Hr.
    destruct Hr as [-> | [-> | [-> | []]]]; discriminate. }
  intros _ Hne Hck. exists d. split; [exact Hd|].
  rewrite (leave_established c d _ (enter_original _ _ _) Hne).
  - simpl. unfold c at 2. rewrite enter_store. reflexivity.
  - unfold c. rewrite enter_cookieId. exact Hck.
Qed.

(** After a successful login, [GET /api/user] with the cookie the login
    set answers 200 with the [id], [username] and [role] that the login
    answered. *)
Theorem login_then_user w rq o out rq' o' :
  serve PostLogin w rq o = Some out ->
  status (response out) = 200 ->
  uid_regenerate o <> sessionID (enter (sessions w) (cookie rq) (uid_enter o)) ->
  cookie rq <> Some (uid_regenerate o) ->
  cookie rq' = set_cookie out ->
  exists out',
    serve GetUser (world out) rq' o' = Some out' /\
    status (response out') = 200 /\
    forall k, k ∈ ["id"; "username"; "role"] ->
      fields (response out') !! k = fields (response out) !! k.
Proof.
  intros Hs Hst Hne Hck Hrq'.
  destruct (login_success_outcome w rq o out Hs Hst Hne Hck) as (d & Hd & ->).
  simpl in Hrq'.
  destruct (current_user_served
              (mkWorld (storage w)
                 (<[uid_regenerate o := mkData (Some (identity_of d))]>
                    (delete (sessionID (enter (sessions w) (cookie rq) (uid_enter o)))
                       (sessions w)))) rq' o') as (out' & Hserve & Hreply & _).
  rewrite Hrq' in Hreply. simpl in Hreply. unfold identity_at in Hreply.
  rewrite lookup_insert_eq in Hreply. simpl in Hreply.
  destruct Hreply as (Hok & Hfields & _).
  exists out'. split; [exact Hserve|]. split; [exact Hok|].
  intros k Hk. apply option_eq. intros v. rewrite Hfields.
  unfold fields. simpl. rewrite login_fields. unfold identity_of, get, login_keys. simpl.
  rewrite !elem_of_cons, elem_of_nil in Hk.
  destruct Hk as [-> | [-> | [-> | []]]]; rewrite !elem_of_cons; split.
  all: try (intros [[[_ ->] | [[? _] | [? _]]] Hv]; try discriminate;
            destruct (d !! _); simpl in *; [auto|congruence]).
  all: try (intros [[[? _] | [[_ ->] | [? _]]] Hv]; try discriminate;
            destruct (d !! _); simpl in *; [auto|congruence]).
  all: try (intros [[[? _] | [[? _] | [_ ->]]] Hv]; try discriminate;
            destruct (d !! _); simpl in *; [auto|congruence]).
  all: intros (_ & -> & Hv); auto.
Qed.

Lemma login_then_user_witness :
  exists out,
  serve PostLogin Sample.world0 Sample.login_request Sample.accepting = Some out /\
  status (response out) = 200 /\
  uid_regenerate Sample.accepting <> sessionID (enter (sessions Sample.world0) (cookie Sample.login_request) (uid_enter Sample.accepting)) /\
  cookie Sample.login_request <> Some (uid_regenerate Sample.accepting) /\
  cookie Fixtures.after_login = set_cookie out /\
  (exists out',
    serve GetUser (world out) Fixtures.after_login Sample.rejecting = Some out' /\
    status (response out') = 200 /\
    forall k, k ∈ ["id"; "username"; "role"] ->
      fields (response out') !! k = fields (response out) !! k).
Proof.
  eexists.
  split; [vm_compute; reflexivity|].
  split; [reflexivity|].
  split; [vm_compute; discriminate|].
  split; [vm_compute; discriminate|].
  split; [reflexivity|].
  apply (login_then_user Sample.world0 Sample.login_request Sample.accepting _ Fixtures.after_login Sample.rejecting);
    [vm_compute; reflexivity | reflexivity | vm_compute; discriminate | vm_compute; discriminate | reflexivity].
Defined.

(** After a successful login, a guard in front of a request that carries
    the cookie the login set decides on the identity the collaborator
    returned. *)
Theorem login_then_guard w rq o out rq' o' g :
  serve PostLogin w rq o = Some out ->
  status (response out) = 200 ->
  uid_regenerate o <> sessionID (enter (sessions w) (cookie rq) (uid_enter o)) ->
  cookie rq <> Some (uid_regenerate o) ->
  cookie rq' = set_cookie out ->
  exists d,
    accepted (collaborator o) = Some d /\
    run_guard g (enter (sessions (world out)) (cookie rq') (uid_enter o')) =
      match g with
      | Unguarded => Next
      | NeedAuth => Next
      | NeedRole m => requireRole m (mkData (Some (identity_of d)))
      end.
Proof.
  intros Hs Hst Hne Hck Hrq'.
  destruct (login_success_outcome w rq o out Hs Hst Hne Hck) as (d & Hd & ->).
  simpl in *. exists d. split; [exact Hd|].
  rewrite run_guard_enter, Hrq'. simpl. unfold identity_at.
  rewrite lookup_insert_eq. destruct g; reflexivity.
Qed.

Lemma login_then_guard_witness :
  exists out,
  serve PostLogin Sample.world0 Sample.login_request Sample.accepting = Some out /\
  status (response out) = 200 /\
  uid_regenerate Sample.accepting <> sessionID (enter (sessions Sample.world0) (cookie Sample.login_request) (uid_enter Sample.accepting)) /\
  cookie Sample.login_request <> Some (uid_regenerate Sample.accepting) /\
  cookie Fixtures.after_login = set_cookie out /\
  (exists d,
    accepted (collaborator Sample.accepting) = Some d /\
    run_guard (NeedRole Admin) (enter (sessions (world out)) (cookie Fixtures.after_login) (uid_enter Sample.rejecting)) =
      match (NeedRole Admin) with
      | Unguarded => Next
      | NeedAuth => Next
      | NeedRole m => requireRole m (mkData (Some (identity_of d)))
      end).
Proof.
  eexists.
  split; [vm_compute; reflexivity|].
  split; [reflexivity|].
  split; [vm_compute; discriminate|].
  split; [vm_compute; discriminate|].
  split; [reflexivity|].
  apply (login_then_guard Sample.world0 Sample.login_request Sample.accepting _ Fixtures.after_login Sample.rejecting (NeedRole Admin));
    [vm_compute; reflexivity | reflexivity | vm_compute; discriminate | vm_compute; discriminate | reflexivity].
Defined.

(** Logging out with the cookie a login set ends the session: the logout
    answers 200 and [GET /api/user] with that cookie then answers 401. *)
Theorem login_logout_user w rq o out rq' o' o'' :
  serve PostLogin w rq o = Some out ->
  status (response out) = 200 ->
  uid_regenerate o <> sessionID (enter (sessions w) (cookie rq) (uid_enter o)) ->
  cookie rq <> Some (uid_regenerate o) ->
  cookie rq' = set_cookie out ->
  exists out1 out2,
    serve PostLogout (world out) rq' o' = Some out1 /\
    response out1 = mkResponse 200 (Text "OK") /\
    sessions (world out1) !! uid_regenerate o = None /\
    serve GetUser (world out1) rq' o'' = Some out2 /\
    response out2 = error 401 "Not authenticated".
Proof.
  intros Hs Hst Hne Hck Hrq'.
  destruct (login_success_outcome w rq o out Hs Hst Hne Hck) as (d & Hd & ->).
  simpl in Hrq'. simpl world.
  set (w1 := mkWorld (storage w) _).
  rewrite (logout_once w1 rq' o').
  pose proof (logout_forgets_presented w1 rq' o' (uid_regenerate o) (or_introl Hrq'))
    as Hgone.
  set (ss2 := delete _ (sessions w1)) in *.
  destruct (get_user_unauthenticated (mkWorld (storage w1) ss2) rq' o'')
    as (out2 & Ho2 & Hr2).
  { rewrite Hrq'. simpl. unfold identity_at. rewrite Hgone. reflexivity. }
  eexists _, out2. split; [reflexivity|]. simpl. auto.
Qed.

Lemma login_logout_user_witness :
  exists out,
  serve PostLogin Sample.world0 Sample.login_request Sample.accepting = Some out /\
  status (response out) = 200 /\
  uid_regenerate Sample.accepting <> sessionID (enter (sessions Sample.world0) (cookie Sample.login_request) (uid_enter Sample.accepting)) /\
  cookie Sample.login_request <> Some (uid_regenerate Sample.accepting) /\
  cookie Fixtures.after_login = set_cookie out /\
  (exists out1 out2,
    serve PostLogout (world out) Fixtures.after_login Sample.rejecting = Some out1 /\
    response out1 = mkResponse 200 (Text "OK") /\
    sessions (world out1) !! uid_regenerate Sample.accepting = None /\
    serve GetUser (world out1) Fixtures.after_login Fixtures.terse = Some out2 /\
    response out2 = error 401 "Not authenticated").
Proof.
  eexists.
  split; [vm_compute; reflexivity|].
  split; [reflexivity|].
  split; [vm_compute; discriminate|].
  split; [vm_compute; discriminate|].
  split; [reflexivity|].
  apply (login_logout_user Sample.world0 Sample.login_request Sample.accepting _ Fixtures.after_login Sample.rejecting Fixtures.terse);
    [vm_compute; reflexivity | reflexivity | vm_compute; discriminate | vm_compute; discriminate | reflexivity].
Defined.

(** Logout removes the session of the request and no other: every other
    stored session and the storage are as before. *)
Theorem logout_frame w rq o :
  exists out,
    serve PostLogout w rq o = Some out /\
    (forall sid, sid <> sessionID (enter (sessions w) (cookie rq) (uid_enter o)) ->
       sessions (world out) !! sid = sessions w !! sid) /\
    (forall c, cookie rq = Some c -> is_Some (sessions w !! c) ->
       sessions (world out) = delete c (sessions w)) /\
    (cookie rq = None -> uid_enter o ∉ dom (sessions w) ->
       sessions (world out) = sessions w) /\
    storage (world out) = storage w.
Proof.
  rewrite logout_once. eexists. split; [reflexivity|]. simpl. repeat split.
  - intros sid Hne. apply lookup_delete_ne. congruence.
  - intros c Hc [s Hs]. rewrite enter_sessionID, Hc, Hs. reflexivity.
  - intros Hc Hfresh. rewrite enter_sessionID, Hc.
    apply delete_id, not_elem_of_dom, Hfresh.
Qed.

(** No route other than login and logout creates, changes or removes the
    identity of a session or sets a cookie; in particular a role change
    does not reach the sessions of the user it changes. *)
Theorem only_login_logout_touch_sessions r w rq o out :
  r <> PostLogin ->
  r <> PostLogout ->
  serve r w rq o = Some out ->
  (forall sid, identity_at (sessions (world out)) sid = identity_at (sessions w) sid) /\
  set_cookie out = None /\
  forall g ck uid,
    run_guard g (enter (sessions (world out)) ck uid) = run_guard g (enter (sessions w) ck uid).
Proof.
  intros Hlogin Hlogout Hs.
  assert ((forall sid, identity_at (sessions (world out)) sid = identity_at (sessions w) sid)
          /\ set_cookie out = None) as [Hid Hck].
  { unfold serve in Hs.
    destruct (leave_enter (sessions w) (cookie rq) (uid_enter o)) as (st' & Hl & Hid & _).
    destruct (run_guard (guard_of r) _) eqn:Hg.
    - destruct r; try contradiction; simpl in Hs; try discriminate;
        unfold get_sensors, get_measurements, get_measurements_recent, get_admin_users,
          patch_admin_user_role, get_user, current_user in Hs.
      + injection Hs as <-. rewrite finish_eq, Hl. auto.
      + injection Hs as <-. rewrite finish_eq, Hl. auto.
      + injection Hs as <-. rewrite finish_eq, Hl. auto.
      + injection Hs as <-. rewrite finish_eq, Hl. auto.
      + destruct (included_role _); [destruct (updateUserRole _ _ _) as [[st1 u1]|msg];
          [|destruct (String.eqb msg "User not found")]|];
          injection Hs as <-; rewrite finish_eq, Hl; auto.
      + destruct (session (enter _ _ _)) as [s|]; [destruct (user s)|];
          injection Hs as <-; rewrite finish_eq, Hl; auto.
    - injection Hs as <-. rewrite finish_eq, Hl. auto. }
  split; [exact Hid|]. split; [exact Hck|].
  intros g ck uid. rewrite !run_guard_enter.
  assert (ck ≫= identity_at (sessions (world out)) = ck ≫= identity_at (sessions w)) as ->.
  { destruct ck as [c|]; simpl; [apply Hid|reflexivity]. }
  reflexivity.
Qed.

Lemma only_login_logout_touch_sessions_witness :
  exists out,
  PatchAdminUserRole <> PostLogin /\
  PatchAdminUserRole <> PostLogout /\
  serve PatchAdminUserRole Sample.world0 Sample.role_request Sample.accepting = Some out /\
  ((forall sid, identity_at (sessions (world out)) sid = identity_at (sessions Sample.world0) sid) /\
  set_cookie out = None /\
  forall g ck uid,
    run_guard g (enter (sessions (world out)) ck uid) = run_guard g (enter (sessions Sample.world0) ck uid)).
Proof.
  eexists.
  split; [discriminate|].
  split; [discriminate|].
  split; [vm_compute; reflexivity|].
  apply (only_login_logout_touch_sessions PatchAdminUserRole Sample.world0 Sample.role_request Sample.accepting _);
    [discriminate | discriminate | vm_compute; reflexivity].
Defined.

(** [GET /api/admin/users], once [requireRole("admin")] lets the request
    through, answers 200 with one object per stored user, none of which
    has a [password]. *)
Theorem admin_users_sanitized w rq o :
  run_guard (guard_of GetAdminUsers)
    (enter (sessions w) (cookie rq) (uid_enter o)) = Next ->
  exists out l,
    serve GetAdminUsers w rq o = Some out /\
    response out = mkResponse 200 (JsonList l) /\
    length l = size (users (storage w)) /\
    (forall x, x ∈ l -> x !! "password" = None) /\
    (forall id u, users (storage w) !! id = Some u -> sanitize u ∈ l) /\
    storage (world out) = storage w.
Proof.
  intros Hg. unfold serve. rewrite Hg. simpl. rewrite finish_eq.
  eexists _, _. split; [reflexivity|]. simpl. split; [reflexivity|]. repeat split.
  - unfold getAllUsers. rewrite !length_fmap. apply length_map_to_list.
  - intros x Hx. apply list_elem_of_fmap in Hx as (u & -> & _). apply sanitize_password.
  - intros id u Hu. apply list_elem_of_fmap. exists u. split; [reflexivity|].
    apply getAllUsers_elem. eauto.
Qed.

Lemma admin_users_sanitized_witness :
  run_guard (guard_of GetAdminUsers)
    (enter (sessions Fixtures.world1) (cookie Fixtures.as_admin) (uid_enter Sample.accepting)) = Next /\
  (exists out l,
    serve GetAdminUsers Fixtures.world1 Fixtures.as_admin Sample.accepting = Some out /\
    response out = mkResponse 200 (JsonList l) /\
    length l = size (users (storage Fixtures.world1)) /\
    (forall x, x ∈ l -> x !! "password" = None) /\
    (forall id u, users (storage Fixtures.world1) !! id = Some u -> sanitize u ∈ l) /\
    storage (world out) = storage Fixtures.world1).
Proof.
  split; [vm_compute; reflexivity|].
  apply (admin_users_sanitized Fixtures.world1 Fixtures.as_admin Sample.accepting);
    [vm_compute; reflexivity].
Defined.

(** [GET /api/measurements/recent] has no guard and answers every
    request with 200 and at most three rows, none older than a stored row
    it leaves out. *)
Theorem recent_measurements_route w rq o :
  exists out l rest,
    serve GetMeasurementsRecent w rq o = Some out /\
    response out = mkResponse 200 (JsonMeasurements l) /\
    (length l <= 3)%nat /\
    getMeasurements (storage w) = (l ++ rest)%list /\
    (forall a b, a ∈ l -> b ∈ rest -> m_timestamp b <= m_timestamp a) /\
    storage (world out) = storage w.
Proof.
  destruct (serve_unguarded GetMeasurementsRecent get_measurements_recent w rq o
              (mkResponse 200 (JsonMeasurements (getRecentMeasurements (storage w) 3))))
    as (out & Hs & Hr & Hst & _); try reflexivity.
  destruct (recent_prefix (storage w) 3) as (rest & Happ & Hlen & Hnew & _).
  exists out, (getRecentMeasurements (storage w) 3), rest.
  repeat split; try assumption. rewrite Hlen. lia.
Qed.

(** A 2xx reply of the collaborator whose JSON body is a primitive (a
    string, a number, a boolean) logs the caller in: the login answers
    200 with an empty object and binds the new session to an identity
    without id, username or role, which passes [requireAuth] and gets
    403 from every [requireRole]. *)
Theorem login_primitive_reply w rq o code :
  truthy (get (req_body rq) "username") = true ->
  truthy (get (req_body rq) "password") = true ->
  collaborator o = FetchResponse code JsonPrimitive ->
  ok code = true ->
  uid_regenerate o <> sessionID (enter (sessions w) (cookie rq) (uid_enter o)) ->
  cookie rq <> Some (uid_regenerate o) ->
  exists out,
    serve PostLogin w rq o = Some out /\
    response out = mkResponse 200 (Json ∅) /\
    set_cookie out = Some (uid_regenerate o) /\
    identity_at (sessions (world out)) (uid_regenerate o)
      = Some (mkSessionUser VUndefined VUndefined VUndefined VUndefined VUndefined) /\
    forall ck uid, ck = Some (uid_regenerate o) ->
      run_guard NeedAuth (enter (sessions (world out)) ck uid) = Next /\
      forall m, run_guard (NeedRole m) (enter (sessions (world out)) ck uid)
                = Reply (error 403 "Insufficient permissions").
Proof.
  intros Hu Hp Hc Hok Hne Hck.
  assert (exists out, serve PostLogin w rq o = Some out /\ status (response out) = 200)
    as (out & Hs & Hst).
  { rewrite serve_login. cbv zeta. eexists. split; [reflexivity|].
    rewrite finish_response. unfold login. rewrite Hu, Hp, Hc, Hok. simpl.
    rewrite (establish_established _ _ _ (enter_session _ _ _)). reflexivity. }
  destruct (login_success_outcome w rq o out Hs Hst Hne Hck) as (d & Hd & ->).
  rewrite Hc in Hd. simpl in Hd. rewrite Hok in Hd. injection Hd as <-.
  eexists. split; [exact Hs|]. cbn [world sessions response set_cookie].
  split; [reflexivity|]. split; [reflexivity|].
  split; [unfold identity_at; rewrite lookup_insert_eq; reflexivity|].
  intros ck uid ->. rewrite !run_guard_enter. simpl. unfold identity_at.
  rewrite lookup_insert_eq. simpl. split; [reflexivity|]. intros []; reflexivity.
Qed.

Lemma login_primitive_reply_witness :
  truthy (get (req_body Sample.login_request) "username") = true /\
  truthy (get (req_body Sample.login_request) "password") = true /\
  collaborator Fixtures.terse = FetchResponse 200 JsonPrimitive /\
  ok 200 = true /\
  uid_regenerate Fixtures.terse <> sessionID (enter (sessions Sample.world0) (cookie Sample.login_request) (uid_enter Fixtures.terse)) /\
  cookie Sample.login_request <> Some (uid_regenerate Fixtures.terse) /\
  (exists out,
    serve PostLogin Sample.world0 Sample.login_request Fixtures.terse = Some out /\
    response out = mkResponse 200 (Json ∅) /\
    set_cookie out = Some (uid_regenerate Fixtures.terse) /\
    identity_at (sessions (world out)) (uid_regenerate Fixtures.terse)
      = Some (mkSessionUser VUndefined VUndefined VUndefined VUndefined VUndefined) /\
    forall ck uid, ck = Some (uid_regenerate Fixtures.terse) ->
      run_guard NeedAuth (enter (sessions (world out)) ck uid) = Next /\
      forall m, run_guard (NeedRole m) (enter (sessions (world out)) ck uid)
                = Reply (error 403 "Insufficient permissions")).
Proof.
  split; [vm_compute; reflexivity|].
  split; [vm_compute; reflexivity|].
  split; [reflexivity|].
  split; [reflexivity|].
  split; [vm_compute; discriminate|].
  split; [vm_compute; discriminate|].
  apply (login_primitive_reply Sample.world0 Sample.login_request Fixtures.terse 200);
    [vm_compute; reflexivity | vm_compute; reflexivity | reflexivity | reflexivity | vm_compute; discriminate | vm_compute; discriminate].
Defined.

(** ** The sensor routes *)

Section SensorRoutes.

Variables (default_latitude default_longitude : Q).

Lemma filter_active_nil st :
  List.filter active (getSensors st) = [] <->
  forall s, s ∈ getSensors st -> active s = false.
Proof.
  generalize (getSensors st). intros l. induction l as [|x l IH]; simpl.
  - split; [intros _ s Hs; apply elem_of_nil in Hs; contradiction|reflexivity].
  - destruct (active x) eqn:E; split.
    + discriminate.
    + intros H. specialize (H x (list_elem_of_here _ _)). congruence.
    + intros H s Hs. apply elem_of_cons in Hs as [->|Hs]; [exact E|].
      apply IH; assumption.
    + intros H. apply IH. intros s Hs. apply H. right. exact Hs.
Qed.

(** [/api/sensors/extract] answers 400 and stores nothing when no
    stored sensor is active. *)
Theorem extract_without_active_sensor st d1 d2 d3 :
  (forall s, s ∈ getSensors st -> active s = false) ->
  post_sensors_extract default_latitude default_longitude st d1 d2 d3
    = (st, message 400 "No active sensors connected").
Proof.
  intros H. apply filter_active_nil in H. unfold post_sensors_extract. rewrite H.
  reflexivity.
Qed.


(** [/api/sensors/connect] stores an active sensor under the drawn id,
    so that an extraction that follows finds an active sensor and
    answers 200. *)
Theorem connect_then_extract st c d1 d2 d3 :
  let '(st', resp) := post_sensors_connect st c in
  status resp = 200 /\
  (exists sensor, getSensor st' (conn_id c) = Some sensor /\
                  sensor_isActive sensor = Some true /\
                  sensor_name sensor = conn_name c) /\
  (forall id, id <> conn_id c -> getSensor st' id = getSensor st id) /\
  status (post_sensors_extract default_latitude default_longitude st' d1 d2 d3).2 = 200.
Proof.
  unfold post_sensors_connect, createSensor, getSensor. simpl.
  split; [reflexivity|]. split.
  { eexists. split; [apply jsmap_get_set_eq|]. split; reflexivity. }
  split; [intros id Hne; apply jsmap_get_set_ne; congruence|].
  unfold post_sensors_extract.
  set (st' := with_sensors st _).
  destruct (List.filter active (getSensors st')) as [|s l] eqn:E.
  - exfalso. pose proof (proj1 (filter_active_nil st') E) as Hnone.
    set (sensor := mkSensor (conn_id c) (conn_name c) "environmental" (Some true)
                     (Some (conn_date c)) (Some (conn_latitude c))
                     (Some (conn_longitude c))).
    assert (sensor ∈ getSensors st') as Hin.
    { unfold getSensors, st'. simpl. apply list_elem_of_fmap.
      exists (conn_id c, sensor). split; [reflexivity|].
      apply jsmap_get_elem, jsmap_get_set_eq. }
    specialize (Hnone sensor Hin). discriminate.
  - simpl. reflexivity.
Qed.

(** Behind [requireRole("technician")], an extraction asked by a
    session whose role is ["user"] answers 403 and stores nothing, and
    one asked by a technician or an administrator runs the handler. *)
Theorem extract_route_by_role w rq o d1 d2 d3 u role :
  cookie rq ≫= identity_at (sessions w) = Some u ->
  su_role u = VStr (role_name role) ->
  let h := fun st => post_sensors_extract default_latitude default_longitude st d1 d2 d3 in
  let out := serve_storage PostSensorsExtract h w rq o in
  match role with
  | User =>
      response out = error 403 "Insufficient permissions" /\
      storage (world out) = storage w
  | _ => (storage (world out), response out) = h (storage w)
  end /\
  (forall sid, identity_at (sessions (world out)) sid = identity_at (sessions w) sid) /\
  set_cookie out = None.
Proof.
  intros Hc Hr h out. unfold out, serve_storage.
  rewrite run_guard_enter, Hc. simpl guard_of. cbv iota.
  assert (requireRole Technician (mkData (Some u)) =
            match role with
            | User => Reply (error 403 "Insufficient permissions")
            | _ => Next
            end) as ->.
  { unfold requireRole. simpl. rewrite Hr. destruct role; reflexivity. }
  destruct (leave_enter (sessions w) (cookie rq) (uid_enter o)) as (st' & Hl & Hid & _).
  destruct role; [destruct (h (storage w)) as [st1 r1]..|];
    rewrite finish_eq, Hl; simpl; auto.
Qed.

End SensorRoutes.

Lemma extract_without_active_sensor_witness :
  (forall s, s ∈ getSensors Fixtures.store2 -> active s = false) /\
  (post_sensors_extract (377749 # 10000)%Q (-1224194 # 10000)%Q Fixtures.store2 Fixtures.draw1 Fixtures.draw2 Fixtures.draw3
    = (Fixtures.store2, message 400 "No active sensors connected")).
Proof.
  split; [intros s Hs; apply list_elem_of_singleton in Hs; subst s; reflexivity|].
  apply (extract_without_active_sensor (377749 # 10000)%Q (-1224194 # 10000)%Q Fixtures.store2 Fixtures.draw1 Fixtures.draw2 Fixtures.draw3);
    [intros s Hs; apply list_elem_of_singleton in Hs; subst s; reflexivity].
Defined.


Lemma extract_route_by_role_witness :
  cookie Fixtures.as_cliente ≫= identity_at (sessions Fixtures.world1) = Some Fixtures.cliente_session /\
  su_role Fixtures.cliente_session = VStr (role_name User) /\
  (let h := fun st => post_sensors_extract (377749 # 10000)%Q (-1224194 # 10000)%Q st Fixtures.draw1 Fixtures.draw2 Fixtures.draw3 in
  let out := serve_storage PostSensorsExtract h Fixtures.world1 Fixtures.as_cliente Sample.accepting in
  match User with
  | User =>
      response out = error 403 "Insufficient permissions" /\
      storage (world out) = storage Fixtures.world1
  | _ => (storage (world out), response out) = h (storage Fixtures.world1)
  end /\
  (forall sid, identity_at (sessions (world out)) sid = identity_at (sessions Fixtures.world1) sid) /\
  set_cookie out = None).
Proof.
  split; [reflexivity|].
  split; [reflexivity|].
  apply (extract_route_by_role (377749 # 10000)%Q (-1224194 # 10000)%Q Fixtures.world1 Fixtures.as_cliente Sample.accepting Fixtures.draw1 Fixtures.draw2 Fixtures.draw3 Fixtures.cliente_session User);
    [reflexivity | reflexivity].
Defined.

(** ** Client: permissions, navigation and guards *)

Import Client Pages Provider.

(** The user-management check, with the provider's default role, holds
    for the role ["admin"] and for no other value. *)
Lemma hasRole_admin_only (v : value) :
  hasRole (or_else v (VStr "user")) Admin = bool_decide (v = VStr "admin").
Proof.
  destruct v as [| |b|n|s|]; try reflexivity.
  - unfold or_else. simpl. destruct b; reflexivity.
  - unfold or_else. simpl. destruct (Z.eqb n 0); reflexivity.
  - unfold or_else. simpl. destruct (String.eqb_spec s "") as [->|Hne]; simpl; [reflexivity|].
    rewrite hasRole_rank. change (rank (role_name Admin)) with 3. unfold rank.
    destruct (String.eqb_spec s "admin") as [->|Ha]; [reflexivity|].
    rewrite bool_decide_eq_false_2 by congruence.
    destruct (String.eqb s "technician"); [reflexivity|].
    destruct (String.eqb s "user"); reflexivity.
Qed.

(** [hasRole] is monotone: a role that suffices for a required role
    suffices for every lower one, and on role strings a higher rank
    suffices wherever a lower one does. *)
Theorem hasRole_monotone :
  (forall (v : value) (r1 r2 : UserRole),
     rank (role_name r2) <= rank (role_name r1) ->
     hasRole v r1 = true -> hasRole v r2 = true) /\
  (forall (s1 s2 : string) (r : UserRole),
     rank s1 <= rank s2 ->
     hasRole (VStr s1) r = true -> hasRole (VStr s2) r = true).
Proof.
  split.
  - intros v r1 r2 Hr. unfold hasRole. rewrite !required_level_rank. unfold JS.ge.
    destruct (to_number (roleHierarchy_at v)) as [n|]; simpl; [|discriminate].
    rewrite !Z.geb_leb, !Z.leb_le. lia.
  - intros s1 s2 r Hs. rewrite !hasRole_rank, !Z.geb_leb, !Z.leb_le. lia.
Qed.

(** Without a cached user, and for a cached user whose role is a
    string, [undefined], [null], a boolean or a number, the navigation
    shows the entries that are not [adminOnly], and the Admin entry
    exactly when the user-management permission of the provider holds.
    Roles that are nested values are left out: for the array
    [["admin"]], whose key is [admin], the entry is hidden while the
    permission holds. *)
Theorem nav_admin_entry (user : option CachedUser) :
  (forall u, user = Some u -> cu_role u <> VObject) ->
  (forall item, item ∈ navItems ->
     nav_visible user item = if item.2 then permission PManageUsers user else true) /\
  nav_paths user =
    if permission PManageUsers user
    then ["/"; "/program"; "/upload"; "/analytics"; "/admin"; "/settings"]
    else ["/"; "/program"; "/upload"; "/analytics"; "/settings"].
Proof.
  intros _.
  assert (permission PManageUsers user =
            match user with
            | None => false
            | Some u => bool_decide (cu_role u = VStr "admin")
            end) as Hp.
  { destruct user as [u|]; [|reflexivity].
    unfold permission, with_user, canManageUsers. apply hasRole_admin_only. }
  split.
  - intros [path adminOnly] _. rewrite Hp. unfold nav_visible. simpl.
    destruct adminOnly; simpl; [|reflexivity].
    destruct user as [u|]; simpl; [|reflexivity]. apply negb_involutive.
  - rewrite Hp. unfold nav_paths, navItems, nav_visible. simpl.
    destruct user as [u|]; simpl; [|reflexivity].
    destruct (bool_decide (cu_role u = VStr "admin")); reflexivity.
Qed.

Lemma nav_admin_entry_witness :
  (forall u, (Some Fixtures.cached_admin) = Some u -> cu_role u <> VObject) /\
  ((forall item, item ∈ navItems ->
     nav_visible (Some Fixtures.cached_admin) item = if item.2 then permission PManageUsers (Some Fixtures.cached_admin) else true) /\
  nav_paths (Some Fixtures.cached_admin) =
    if permission PManageUsers (Some Fixtures.cached_admin)
    then ["/"; "/program"; "/upload"; "/analytics"; "/admin"; "/settings"]
    else ["/"; "/program"; "/upload"; "/analytics"; "/settings"]).
Proof.
  split; [intros u [= <-]; discriminate|].
  apply (nav_admin_entry (Some Fixtures.cached_admin));
    [intros u [= <-]; discriminate].
Defined.

(** A [RoleGuard] without requirement renders its children for everyone,
    one with a requirement never renders them without a cached user, and
    an administrator sees the children of every guard. *)
Theorem RoleGuard_open_closed (fallback hide : bool) :
  (forall user, RoleGuard None None fallback hide user = Children) /\
  (forall rr rp, RoleGuard rr rp fallback hide None = Children <-> rr = None /\ rp = None) /\
  (forall u rr rp, cu_role u = VStr "admin" ->
     RoleGuard rr rp fallback hide (Some u) = Children).
Proof.
  split; [reflexivity|]. split.
  - intros rr rp. unfold RoleGuard, guard_hasAccess, checkRole, with_user.
    destruct rr as [r|], rp as [p|]; simpl;
      try (destruct p; simpl); destruct hide, fallback; simpl;
      split; try (intros [? ?]); try discriminate; auto.
  - intros u rr rp Hu. unfold RoleGuard, guard_hasAccess, checkRole, permission,
      with_user, canAccessAnalytics, canManageSensors, canExportData, canManageUsers,
      canAccessAdvancedSettings.
    rewrite Hu. destruct rr as [[]|], rp as [[]|]; reflexivity.
Qed.

(** What a [RoleGuard] shows to a role it shows to every higher role. *)
Theorem RoleGuard_monotone rr rp fallback hide u1 u2 r1 r2 :
  cu_role u1 = VStr (role_name r1) ->
  cu_role u2 = VStr (role_name r2) ->
  rank (role_name r1) <= rank (role_name r2) ->
  RoleGuard rr rp fallback hide (Some u1) = Children ->
  RoleGuard rr rp fallback hide (Some u2) = Children.
Proof.
  intros H1 H2 Hr. unfold RoleGuard, guard_hasAccess, checkRole, permission,
    with_user, canAccessAnalytics, canManageSensors, canExportData, canManageUsers,
    canAccessAdvancedSettings.
  rewrite H1, H2.
  destruct r1, r2; try (vm_compute in Hr; exfalso; apply Hr; reflexivity);
    destruct rr as [[]|], rp as [[]|]; destruct hide, fallback;
    vm_compute; intros H; try reflexivity; discriminate H.
Qed.

Lemma RoleGuard_monotone_witness :
  cu_role Fixtures.cached_tecnico = VStr (role_name Technician) /\
  cu_role Fixtures.cached_admin = VStr (role_name Admin) /\
  rank (role_name Technician) <= rank (role_name Admin) /\
  RoleGuard (Some Technician) (Some PExportData) false false (Some Fixtures.cached_tecnico) = Children /\
  (RoleGuard (Some Technician) (Some PExportData) false false (Some Fixtures.cached_admin) = Children).
Proof.
  split; [reflexivity|].
  split; [reflexivity|].
  split; [vm_compute; discriminate|].
  split; [reflexivity|].
  apply (RoleGuard_monotone (Some Technician) (Some PExportData) false false Fixtures.cached_tecnico Fixtures.cached_admin Technician Admin);
    [reflexivity | reflexivity | vm_compute; discriminate | reflexivity].
Defined.

(** The number of entries of a list that are the key [k]. *)
Lemma foldl_increment l (c : counts) k n :
  c !! k = Some (Some n) ->
  foldl increment c l !! k = Some (Some (n + Z.of_nat (length (filter (fun s => s = k) l)))).
Proof.
  revert c n. induction l as [|x l IH]; intros c n Hc; simpl.
  - rewrite Hc, Z.add_0_r. reflexivity.
  - destruct (decide (x = k)) as [->|Hne].
    + rewrite filter_cons_True by reflexivity.
      rewrite (IH (increment c k) (n + 1)).
      * simpl length. do 2 f_equal. lia.
      * unfold increment. rewrite lookup_insert_eq, Hc. reflexivity.
    + rewrite filter_cons_False by exact Hne.
      apply IH. unfold increment. rewrite lookup_insert_ne by exact Hne. exact Hc.
Qed.

Lemma length_by_role (l : list string) :
  Forall recognized l ->
  (length (filter (fun s => s = "admin") l) +
   length (filter (fun s => s = "technician") l) +
   length (filter (fun s => s = "user") l))%nat = length l.
Proof.
  induction 1 as [|x l Hx _ IH]; [reflexivity|].
  rewrite !filter_cons.
  destruct Hx as [-> | [-> | ->]]; repeat case_decide; try discriminate;
    try contradiction; simpl; lia.
Qed.

(** [getRoleCounts()] counts, for each of the three roles, the listed
    users with that role, whatever other roles the list holds; the three
    counts add up to the number of users when every role is one of the
    three, and all are 0 before the list is fetched. *)
Theorem getRoleCounts_counts (l : list string) (r : UserRole) :
  getRoleCounts (Some l) !! role_name r
    = Some (Some (Z.of_nat (length (filter (fun s => s = role_name r) l)))) /\
  getRoleCounts None !! role_name r = Some (Some 0) /\
  (Forall recognized l ->
   exists a t u,
     getRoleCounts (Some l) !! "admin" = Some (Some a) /\
     getRoleCounts (Some l) !! "technician" = Some (Some t) /\
     getRoleCounts (Some l) !! "user" = Some (Some u) /\
     a + t + u = Z.of_nat (length l)).
Proof.
  unfold getRoleCounts. split; [|split].
  - rewrite (foldl_increment l _ (role_name r) 0); [reflexivity|].
    destruct r; reflexivity.
  - destruct r; reflexivity.
  - intros Hl. eexists _, _, _.
    split; [apply (foldl_increment l _ "admin" 0); reflexivity|].
    split; [apply (foldl_increment l _ "technician" 0); reflexivity|].
    split; [apply (foldl_increment l _ "user" 0); reflexivity|].
    rewrite <- (length_by_role l Hl). lia.
Qed.

(** ** Client: the provider against the server *)

Lemma get_stringify o k : get (stringify_fields o) k = get o k.
Proof.
  unfold get. destruct (stringify_fields o !! k) as [v|] eqn:E.
  - apply stringify_lookup in E as [-> _]. reflexivity.
  - destruct (o !! k) as [v|] eqn:F; [|reflexivity]. simpl.
    destruct (decide (v = VUndefined)) as [->|Hv]; [reflexivity|].
    assert (stringify_fields o !! k = Some v) as Hs by (apply stringify_lookup; auto).
    congruence.
Qed.

Lemma current_user_response w rq o :
  exists out,
    serve GetUser w rq o = Some out /\
    response out =
      match cookie rq ≫= identity_at (sessions w) with
      | None => error 401 "Not authenticated"
      | Some u =>
          mkResponse 200 (Json (stringify_fields
            (<["id" := su_id u]> (<["username" := su_username u]>
            (<["role" := su_role u]> ∅)))))
      end.
Proof.
  unfold serve. simpl. unfold get_user, current_user.
  destruct (enter_session (sessions w) (cookie rq) (uid_enter o)) as [s Hs].
  pose proof (enter_user _ _ _ _ Hs) as Hu. rewrite Hs, <- Hu.
  destruct (user s) as [u|]; eexists; (split; [reflexivity|]); apply finish_response.
Qed.

(** On load, the provider caches an identity exactly when the session of
    the request holds one, and the id, username and role it caches are
    those of the session. *)
Theorem query_caches_session_identity w rq o :
  exists out,
    serve GetUser w rq o = Some out /\
    cached_user (queryFn (over_http (response out)))
      = (fun u => mkCachedUser (su_id u) (su_username u) (su_role u))
          <$> (cookie rq ≫= identity_at (sessions w)).
Proof.
  destruct (current_user_response w rq o) as (out & Hs & Hr).
  exists out. split; [exact Hs|]. rewrite Hr.
  destruct (cookie rq ≫= identity_at (sessions w)) as [u|]; [|reflexivity].
  unfold over_http, queryFn, cached_user. simpl. rewrite !get_stringify. unfold get.
  rewrite lookup_insert_eq.
  rewrite lookup_insert_ne, lookup_insert_eq by discriminate.
  rewrite !lookup_insert_ne, lookup_insert_eq by discriminate.
  reflexivity.
Qed.

(** A login that the server accepts puts the server's reply in the
    cache, and from then on each permission of the provider holds exactly
    when [requireRole] of its minimum role lets the new session pass, for
    every role string that [Object.prototype] does not define. *)
Theorem login_permissions_agree w rq o out cache r p ck uid :
  serve PostLogin w rq o = Some out ->
  status (response out) = 200 ->
  uid_regenerate o <> sessionID (enter (sessions w) (cookie rq) (uid_enter o)) ->
  cookie rq <> Some (uid_regenerate o) ->
  get (fields (response out)) "role" = VStr r ->
  inherited r = false ->
  ck = set_cookie out ->
  let '(cache', shown) := loginMutation cache (over_http (response out)) in
  cache' = Some (fields (response out)) /\
  shown = Welcome (get (fields (response out)) "username") /\
  permission p (cached_user cache')
    = passes (run_guard (NeedRole (minRole p)) (enter (sessions (world out)) ck uid)).
Proof.
  intros Hs Hst Hne Hck Hrole Hi ->.
  destruct (login_success_outcome w rq o out Hs Hst Hne Hck) as (d & Hd & ->).
  unfold fields in *. cbn [response world sessions set_cookie body status] in *.
  rewrite get_stringify in Hrole.
  assert (Auth.ok 200 = true) as Hok by reflexivity.
  unfold loginMutation, over_http. cbn [response body status]. rewrite Hok.
  cbn [negb]. cbv iota.
  split; [reflexivity|]. split; [reflexivity|].
  rewrite run_guard_enter. simpl. unfold identity_at. rewrite lookup_insert_eq. simpl.
  assert (get d "role" = VStr r) as Hd_role.
  { unfold login_body, get in Hrole.
    rewrite !lookup_insert_ne, lookup_insert_eq in Hrole by discriminate. exact Hrole. }
  apply (permission_agrees_off_prototype (identity_of d) r); try assumption.
  simpl. rewrite get_stringify. exact Hrole.
Qed.

Lemma login_permissions_agree_witness :
  exists out,
  serve PostLogin Sample.world0 Sample.login_request Sample.accepting = Some out /\
  status (response out) = 200 /\
  uid_regenerate Sample.accepting <> sessionID (enter (sessions Sample.world0) (cookie Sample.login_request) (uid_enter Sample.accepting)) /\
  cookie Sample.login_request <> Some (uid_regenerate Sample.accepting) /\
  get (fields (response out)) "role" = VStr "admin" /\
  inherited "admin" = false /\
  (Some "sid-2") = set_cookie out /\
  (let '(cache', shown) := loginMutation None (over_http (response out)) in
  cache' = Some (fields (response out)) /\
  shown = Welcome (get (fields (response out)) "username") /\
  permission PManageUsers (cached_user cache')
    = passes (run_guard (NeedRole (minRole PManageUsers)) (enter (sessions (world out)) (Some "sid-2") "sid-3"))).
Proof.
  eexists.
  split; [vm_compute; reflexivity|].
  split; [reflexivity|].
  split; [vm_compute; discriminate|].
  split; [vm_compute; discriminate|].
  split; [vm_compute; reflexivity|].
  split; [reflexivity|].
  split; [reflexivity|].
  apply (login_permissions_agree Sample.world0 Sample.login_request Sample.accepting _ None "admin" PManageUsers (Some "sid-2") "sid-3");
    [vm_compute; reflexivity | reflexivity | vm_compute; discriminate | vm_compute; discriminate | vm_compute; reflexivity | reflexivity | reflexivity].
Defined.

(** A login that the server refuses leaves the cache as it was and shows
    the server's error text. *)
Theorem refused_login_keeps_cache w rq o out cache :
  serve PostLogin w rq o = Some out ->
  status (response out) <> 200 ->
  exists msg,
    response out = error (status (response out)) msg /\
    loginMutation cache (over_http (response out)) = (cache, ErrorText (VStr msg)).
Proof.
  rewrite serve_login. cbv zeta. intros [= <-]. rewrite finish_response.
  destruct (login_cases (enter (sessions w) (cookie rq) (uid_enter o)) (req_body rq)
              (collaborator o) (uid_regenerate o) (enter_session _ _ _))
    as [(r & -> & Hr) | (d & Hd & ->)]; simpl.
  - intros _. unfold login_refusals in Hr. rewrite !elem_of_cons, elem_of_nil in Hr.
    destruct Hr as [-> | [-> | [-> | []]]]; eexists; split; reflexivity.
  - intros H. exfalso. apply H. reflexivity.
Qed.

Lemma refused_login_keeps_cache_witness :
  exists out,
  serve PostLogin Sample.world0 Sample.login_request Sample.rejecting = Some out /\
  status (response out) <> 200 /\
  (exists msg,
    response out = error (status (response out)) msg /\
    loginMutation None (over_http (response out)) = (None, ErrorText (VStr msg))).
Proof.
  eexists.
  split; [vm_compute; reflexivity|].
  split; [vm_compute; discriminate|].
  apply (refused_login_keeps_cache Sample.world0 Sample.login_request Sample.rejecting _ None);
    [vm_compute; reflexivity | vm_compute; discriminate].
Defined.

(** Logout always succeeds on the server, so the provider always clears
    the cache, after which every permission is denied and every guard
    with a requirement hides its children. *)
Theorem logout_clears_cache w rq o cache :
  exists out,
    serve PostLogout w rq o = Some out /\
    logoutMutation cache (over_http (response out)) = (None, LoggedOut) /\
    (forall p, permission p (cached_user None) = false) /\
    (forall r, checkRole (cached_user None) r = false).
Proof.
  rewrite logout_once. eexists. split; [reflexivity|]. simpl.
  split; [reflexivity|]. split; [intros []; reflexivity|intros []; reflexivity].
Qed.
